(** * Bird image analysis front end: discovery, upload keys, triggers, access policy

    A shallow embedding of the TypeScript front end and of the deployment
    scripts of the bird image analysis repository, with the properties of the
    specification stated and proved over it.

    Conventions of the embedding:
    - a JavaScript string is a [string] (the code units the sources handle
      are ASCII: keys, CSV text, ISO timestamps);
    - a JavaScript [Date] is its time value, a [Z] of milliseconds since the
      epoch; [undefined] is [None]; [NaN] is [None] where a number can be
      [NaN];
    - integers read by [parseInt] and summed are mathematical integers [Z]:
      the numbers of the source are doubles, which are these integers up to
      2^53 and are rounded above, so statements on values read or summed
      carry that bound;
    - an awaited call to the storage library either returns or throws:
      [option], [None] being the thrown exception. *)

From Stdlib Require Import String Ascii List ZArith Lia Bool Arith.
From Stdlib Require Import Sorting.Sorted Sorting.Permutation.
Import ListNotations.

Local Open Scope string_scope.
Local Open Scope Z_scope.

(** ** JavaScript built-ins used by the sources *)

Module JS.

(** [String.prototype.startsWith] *)
Definition startsWith (s p : string) : bool := String.prefix p s.

(** [String.prototype.endsWith]: the last [length p] code units are [p]. *)
Definition endsWith (s p : string) : bool :=
  let n := String.length s in
  let m := String.length p in
  if (m <=? n)%nat then String.eqb (String.substring (n - m) m s) p else false.

(** [String.prototype.includes]: [p] occurs at some position of [s]. *)
Fixpoint includes (s p : string) : bool :=
  String.prefix p s ||
  match s with
  | EmptyString => false
  | String _ s' => includes s' p
  end.

(** White space and line terminators stripped by [trim] and skipped by
    [parseInt] (tab, line feed, vertical tab, form feed, carriage return,
    space, no-break space). *)
Definition isWhiteSpace (c : ascii) : bool :=
  match nat_of_ascii c with
  | 9%nat | 10%nat | 11%nat | 12%nat | 13%nat | 32%nat | 160%nat => true
  | _ => false
  end.

Fixpoint trimStart (s : string) : string :=
  match s with
  | String c s' => if isWhiteSpace c then trimStart s' else s
  | EmptyString => EmptyString
  end.

Definition rev (s : string) : string :=
  string_of_list_ascii (List.rev (list_ascii_of_string s)).

Definition trimEnd (s : string) : string := rev (trimStart (rev s)).

(** [String.prototype.trim] *)
Definition trim (s : string) : string := trimEnd (trimStart s).

(** Truthiness of a string: non-empty. *)
Definition truthy (s : string) : bool := negb (String.eqb s "").

(** [s.split(sep)] for a one-character separator: never empty, the empty
    string splits into one empty field. *)
Fixpoint split (sep : ascii) (s : string) : list string :=
  match s with
  | EmptyString => [EmptyString]
  | String c s' =>
      if Ascii.eqb c sep then EmptyString :: split sep s'
      else match split sep s' with
           | h :: t => String c h :: t
           | [] => [String c EmptyString]
           end
  end.

(** [s.replace(/[..]/g, to)]: every code unit selected by [sel] becomes [to]. *)
Fixpoint replaceAll (sel : ascii -> bool) (to : ascii) (s : string) : string :=
  match s with
  | EmptyString => EmptyString
  | String c s' => String (if sel c then to else c) (replaceAll sel to s')
  end.

Definition toLowerCase (s : string) : string :=
  let lower (c : ascii) :=
    let n := nat_of_ascii c in
    if ((65 <=? n) && (n <=? 90))%nat then ascii_of_nat (n + 32) else c in
  string_of_list_ascii (List.map lower (list_ascii_of_string s)).

(** *** Numbers *)

Definition digitChar (d : Z) : ascii := ascii_of_nat (48 + Z.to_nat d).

(** Decimal digits of a non-negative integer, most significant first. *)
Fixpoint digits (fuel : nat) (n : Z) : list ascii :=
  match fuel with
  | O => []
  | S f => (if n <? 10 then [] else digits f (n / 10)) ++ [digitChar (n mod 10)]
  end.

Definition digitsOf (n : Z) : list ascii := digits (S (Z.to_nat (Z.log2 n))) n.

(** [Number.prototype.toString] (and template interpolation) on an integer. *)
Definition numberToString (n : Z) : string :=
  if n <? 0 then String "-" (string_of_list_ascii (digitsOf (- n)))
  else string_of_list_ascii (digitsOf n).

(** Value of a code unit as a digit in [radix], if it is one. *)
Definition digitVal (radix : Z) (c : ascii) : option Z :=
  let n := Z.of_nat (nat_of_ascii c) in
  let v := if (48 <=? n) && (n <=? 57) then Some (n - 48)
           else if (97 <=? n) && (n <=? 122) then Some (n - 87)
           else if (65 <=? n) && (n <=? 90) then Some (n - 55)
           else None in
  match v with
  | Some d => if d <? radix then Some d else None
  | None => None
  end.

(** The longest prefix of digits, read in [radix]; [acc] is [None] until
    a first digit has been read. *)
Fixpoint parseDigits (radix : Z) (s : string) (acc : option Z) : option Z :=
  match s with
  | EmptyString => acc
  | String c s' =>
      match digitVal radix c with
      | Some v =>
          parseDigits radix s'
            (Some (match acc with Some a => a * radix + v | None => v end))
      | None => acc
      end
  end.

(** [parseInt(s)] with no radix argument; [None] is [NaN].  The value is
    the integer the digits denote, which is the number the source gets as
    long as it does not exceed 2^53. *)
Definition parseInt (s : string) : option Z :=
  let s1 := trimStart s in
  let '(sign, s2) :=
    match s1 with
    | String "-" r => (-1, r)
    | String "+" r => (1, r)
    | _ => (1, s1)
    end in
  let '(radix, s3) :=
    match s2 with
    | String "0" (String "x" r) => (16, r)
    | String "0" (String "X" r) => (16, r)
    | _ => (10, s2)
    end in
  match parseDigits radix s3 None with
  | Some n => Some (sign * n)
  | None => None
  end.

(** [x || 0] on a number: [NaN] (and zero) give [0]. *)
Definition orZero (x : option Z) : Z :=
  match x with Some n => n | None => 0 end.

(** *** [Array.prototype.sort]

    The comparator returns a number, [None] being [NaN], which the sort
    reads as [+0].  The sort is stable; for a comparator that is a total
    preorder the result is fixed by the language, and the insertion sort
    below computes it. *)
Section Sort.
Context {A : Type} (cmp : A -> A -> option Z).

Definition sortCompare (x y : A) : Z := orZero (cmp x y).

Fixpoint insert (x : A) (l : list A) : list A :=
  match l with
  | [] => [x]
  | y :: l' => if sortCompare x y <=? 0 then x :: l else y :: insert x l'
  end.

Fixpoint sort (l : list A) : list A :=
  match l with
  | [] => []
  | x :: l' => insert x (sort l')
  end.
End Sort.

(** [Array.prototype.slice(0, n)] *)
Definition slice0 {A : Type} (n : nat) (l : list A) : list A := firstn n l.

End JS.

(** ** The storage library, as the components see it

    For one fixed state of the object store, what the calls of
    [aws-amplify/storage] answer.  [None] is a thrown exception. *)

Module Storage.

(** An entry of [list({prefix})] (key-based interface). *)
Record ListItem := {
  key : option string;
  lastModified : option Z
}.

Record ListOutput := { items : option (list ListItem) }.

(** An entry of [list({path})] (path-based interface), which is also the
    component's [CSVFile] once [downloadUrl] is filled in. *)
Record CSVFile := {
  path : string;
  pathLastModified : option Z;
  size : option Z;
  downloadUrl : option string
}.

(** [getUrl] mints a retrieval handle that expires ([expiresIn]): what it
    answers depends on the time of the call as well as on the object. *)
Record t := {
  list_ : string -> option ListOutput;
  listAll : string -> option (list CSVFile);
  downloadData : string -> option string;
  getUrl : Z -> string -> option string
}.

End Storage.

(** ** src/components/ResultsChecker.tsx *)

Module ResultsChecker.
Import Storage.

Record ProcessingResult := {
  filename : string;
  birdCount : Z;
  extractionFolder : string;
  csvKey : string;
  downloadUrl : string;
  timestamp : string
}.

(** The component state set by [useState]. *)
Record State := {
  isChecking : bool;
  lastCheck : option Z
}.

(** What a run does to the outside, in order. *)
Inductive Effect :=
| ConsoleLog (msg : string)
| ConsoleError (msg : string)
| ListCall (prefix : string)
| DownloadCall (k : string)
| GetUrlCall (k : string) (expiresIn : Z)
| OnResultsFound (results : list ProcessingResult).

(** [item.key?.endsWith('.csv')] *)
Definition isCsv (item : ListItem) : bool :=
  match key item with
  | Some k => JS.endsWith k ".csv"
  | None => false
  end.

(** [a.lastModified || new Date(0)], then [getTime()] *)
Definition timeOf (item : ListItem) : Z :=
  match lastModified item with
  | Some t => t
  | None => 0
  end.

(** The comparator of the sort: [dateB.getTime() - dateA.getTime()] *)
Definition byDateDesc (a b : ListItem) : option Z :=
  Some (timeOf b - timeOf a).

Definition csvFilesOf (l : list ListItem) : list ListItem :=
  JS.sort byDateDesc (filter isCsv l).

(** [csvText.split('\n').filter(line => line.trim())] *)
Definition linesOf (csvText : string) : list string :=
  filter (fun line => JS.truthy (JS.trim line)) (JS.split "010" csvText).

(** One turn of the loop over the data lines:
    [const [filename, birdCount] = line.split(',')], the test
    [filename && birdCount], and the number added to [totalBirds]. *)
Definition parseRow (line : string) : option (string * Z) :=
  match JS.split "," line with
  | filename :: birdCount :: _ =>
      if JS.truthy filename && JS.truthy birdCount
      then Some (filename, JS.orZero (JS.parseInt birdCount))
      else None
  | _ => None
  end.

(** The loop, on the pair [(totalBirds, fileCount)]. *)
Definition countRows (dataLines : list string) : Z * Z :=
  fold_left
    (fun '(totalBirds, fileCount) line =>
       match parseRow line with
       | Some (_, n) => (totalBirds + n, fileCount + 1)
       | None => (totalBirds, fileCount)
       end)
    dataLines (0, 0).

(** The dot of a regular expression matches all but line terminators. *)
Definition isLineTerminator (c : ascii) : bool :=
  match nat_of_ascii c with
  | 10%nat | 13%nat => true
  | _ => false
  end.

(** [(.+)\.csv] at the start of [s]: the longest non-empty run without
    line terminator that is followed by [.csv]. *)
Fixpoint captureBeforeCsv (s : string) : option string :=
  match s with
  | EmptyString => None
  | String c s' =>
      if isLineTerminator c then None
      else match captureBeforeCsv s' with
           | Some cap => Some (String c cap)
           | None => if String.prefix ".csv" s' then Some (String c EmptyString)
                     else None
           end
  end.

Fixpoint dropString (n : nat) (s : string) : string :=
  match n, s with
  | S n', String _ s' => dropString n' s'
  | _, _ => s
  end.

(** [key.match(/bird-results-(.+)\.csv/)], group 1 of the leftmost match. *)
Fixpoint matchBirdResults (s : string) : option string :=
  let here :=
    if String.prefix "bird-results-" s
    then captureBeforeCsv (dropString 13 s)
    else None in
  match here with
  | Some cap => Some cap
  | None =>
      match s with
      | EmptyString => None
      | String _ s' => matchBirdResults s'
      end
  end.

Definition timestampOf (k : string) : string :=
  match matchBirdResults k with
  | Some cap => JS.replaceAll (Ascii.eqb "-") ":" cap
  | None => "Unknown"
  end.

(** The body of the loop over [recentFiles]: the effects of the turn and
    the entry pushed on [results], if one is. *)
Definition processFile (env : Storage.t) (now : Z) (file : ListItem)
  : list Effect * option ProcessingResult :=
  match key file with
  | None => ([], None)
  | Some k =>
      if negb (JS.truthy k) then ([], None)
      else
        match downloadData env k with
        | None =>
            ([DownloadCall k; ConsoleError ("Error processing CSV " ++ k ++ ":")],
             None)
        | Some csvText =>
            let lines := linesOf csvText in
            if (length lines <? 2)%nat then ([DownloadCall k], None)
            else
              let dataLines := skipn 1 lines in
              let '(totalBirds, fileCount) := countRows dataLines in
              match getUrl env now k with
              | None =>
                  ([DownloadCall k; GetUrlCall k 3600;
                    ConsoleError ("Error processing CSV " ++ k ++ ":")],
                   None)
              | Some url =>
                  ([DownloadCall k; GetUrlCall k 3600],
                   Some {| filename := JS.numberToString fileCount ++ " images processed";
                           birdCount := totalBirds;
                           extractionFolder := k;
                           csvKey := k;
                           downloadUrl := url;
                           timestamp := timestampOf k |})
              end
        end
  end.

(** The loop [for (const file of recentFiles)]: effects in order and the
    array [results]. *)
Fixpoint processFiles (env : Storage.t) (now : Z) (files : list ListItem)
  : list Effect * list ProcessingResult :=
  match files with
  | [] => ([], [])
  | file :: rest =>
      let '(e1, r1) := processFile env now file in
      let '(e2, r2) := processFiles env now rest in
      ((e1 ++ e2)%list, match r1 with Some r => r :: r2 | None => r2 end)
  end.

(** [checkForResults], run at time [now] from the state [st]: the state it
    leaves and its effects. *)
Definition checkForResults (env : Storage.t) (now : Z) (st : State)
  : State * list Effect :=
  if isChecking st then (st, [])
  else
    let start := [ConsoleLog "Checking for new CSV results..."; ListCall "public/results/"] in
    let done := {| isChecking := false; lastCheck := lastCheck st |} in
    match list_ env "public/results/" with
    | None => (done, (start ++ [ConsoleError "Error checking for results:"])%list)
    | Some listResult =>
        match items listResult with
        | None => (done, (start ++ [ConsoleLog "No results folder found"])%list)
        | Some its =>
            let csvFiles := csvFilesOf its in
            let found :=
              ConsoleLog ("Found " ++ JS.numberToString (Z.of_nat (length csvFiles))
                          ++ " CSV files") in
            if (length csvFiles =? 0)%nat
            then (done, (start ++ [found; OnResultsFound []])%list)
            else
              let recentFiles := JS.slice0 5 csvFiles in
              let '(effs, results) := processFiles env now recentFiles in
              ({| isChecking := false; lastCheck := Some now |},
               (start ++ [found] ++ effs ++ [OnResultsFound results])%list)
        end
    end.

(** What the consumer received: the arguments of [onResultsFound]. *)
Definition delivered (effs : list Effect) : list (list ProcessingResult) :=
  flat_map (fun e => match e with OnResultsFound r => [r] | _ => [] end) effs.

Definition downloads (effs : list Effect) : list string :=
  flat_map (fun e => match e with DownloadCall k => [k] | _ => [] end) effs.

Definition errors (effs : list Effect) : list string :=
  flat_map (fun e => match e with ConsoleError m => [m] | _ => [] end) effs.

End ResultsChecker.

(** ** src/components/EnhancedCSVViewer.tsx *)

Module EnhancedCSVViewer.
Import Storage.

Record State := {
  csvFiles : list CSVFile;
  loading : bool;
  error : option string
}.

(** [item.path?.includes('enhanced_bird_results') && item.path?.endsWith('.csv')] *)
Definition isEnhancedCsv (item : CSVFile) : bool :=
  JS.includes (path item) "enhanced_bird_results" && JS.endsWith (path item) ".csv".

(** The function mapped under [Promise.all]: the entry with its download
    URL, or the entry as it is (and a line on the console) when [getUrl]
    throws. *)
Definition withUrl (env : Storage.t) (now : Z) (csv : CSVFile)
  : CSVFile * list string :=
  match getUrl env now (path csv) with
  | Some url =>
      ({| path := path csv;
          pathLastModified := pathLastModified csv;
          size := size csv;
          downloadUrl := Some url |}, [])
  | None => (csv, ["Failed to get URL for " ++ path csv ++ ":"])
  end.

(** [new Date(b.lastModified!).getTime() - new Date(a.lastModified!).getTime()]:
    the time value of [new Date(undefined)] is [NaN], and so is the
    difference. *)
Definition byLastModifiedDesc (a b : CSVFile) : option Z :=
  match pathLastModified b, pathLastModified a with
  | Some tb, Some ta => Some (tb - ta)
  | _, _ => None
  end.

(** [loadCSVFiles]: the state it sets and the lines of [console.error]. *)
Definition loadCSVFiles (env : Storage.t) (now : Z) (st : State)
  : State * list string :=
  match listAll env "public/results/" with
  | None =>
      ({| csvFiles := csvFiles st;
          loading := false;
          error := Some "Failed to load enhanced CSV files. Make sure some processing has completed." |},
       ["Error loading CSV files:"])
  | Some its =>
      let enhancedCSVs := filter isEnhancedCsv its in
      let csvsWithUrls := List.map (withUrl env now) enhancedCSVs in
      ({| csvFiles := JS.sort byLastModifiedDesc (List.map fst csvsWithUrls);
          loading := false;
          error := None |},
       List.concat (List.map snd csvsWithUrls))
  end.

(** What the component shows once loaded. *)
Inductive View :=
| LoadingView
| ErrorView (msg : string)
| EmptyState
| CsvList (files : list CSVFile).

Definition render (st : State) : View :=
  if loading st then LoadingView
  else match error st with
       | Some msg => ErrorView msg
       | None =>
           if (length (csvFiles st) =? 0)%nat then EmptyState
           else CsvList (csvFiles st)
       end.

(** [getFileName]: [path.split('/').pop() || path] *)
Definition getFileName (p : string) : string :=
  let last := List.last (JS.split "/" p) EmptyString in
  if JS.truthy last then last else p.

(** What a click on Download does. *)
Inductive Click :=
| WindowOpen (url : string)
| Alert (msg : string).

(** [downloadCSV] *)
Definition downloadCSV (csv : CSVFile) : Click :=
  match Storage.downloadUrl csv with
  | Some url =>
      if JS.truthy url then WindowOpen url
      else Alert "Download URL not available for this file"
  | None => Alert "Download URL not available for this file"
  end.

End EnhancedCSVViewer.

(** ** [Date.prototype.toISOString]

    The time value is split into calendar fields as the language defines
    them (days since the epoch, year of a day, month and date within the
    year) and printed as [YYYY-MM-DDTHH:mm:ss.sssZ], the year on six digits
    with a sign outside 0..9999. *)

Module JSDate.

Definition msPerDay : Z := 86400000.

Definition Day (t : Z) : Z := t / msPerDay.
Definition TimeWithinDay (t : Z) : Z := t mod msPerDay.

Definition DayFromYear (y : Z) : Z :=
  365 * (y - 1970) + (y - 1969) / 4 - (y - 1901) / 100 + (y - 1601) / 400.

Definition isLeap (y : Z) : bool :=
  ((y mod 4 =? 0) && negb (y mod 100 =? 0)) || (y mod 400 =? 0).

(** The largest year whose first day is not after day [d]: an estimate
    from the mean length of a year, corrected by at most one. *)
Definition YearFromDay (d : Z) : Z :=
  let y0 := 1970 + (d * 400) / 146097 in
  if DayFromYear (y0 + 1) <=? d then y0 + 1
  else if DayFromYear y0 <=? d then y0
  else y0 - 1.

Definition YearFromTime (t : Z) : Z := YearFromDay (Day t).

Definition DayWithinYear (t : Z) : Z := Day t - DayFromYear (YearFromTime t).

(** Month (0..11) and date (1..31) from the day within the year and the
    leap day. *)
Definition MonthFromDay (leap dwy : Z) : Z :=
  if dwy <? 31 then 0
  else if dwy <? 59 + leap then 1
  else if dwy <? 90 + leap then 2
  else if dwy <? 120 + leap then 3
  else if dwy <? 151 + leap then 4
  else if dwy <? 181 + leap then 5
  else if dwy <? 212 + leap then 6
  else if dwy <? 243 + leap then 7
  else if dwy <? 273 + leap then 8
  else if dwy <? 304 + leap then 9
  else if dwy <? 334 + leap then 10
  else 11.

(** First day of month [m] within the year. *)
Definition monthStart (leap m : Z) : Z :=
  match m with
  | 0 => 0
  | 1 => 31
  | 2 => 59 + leap
  | 3 => 90 + leap
  | 4 => 120 + leap
  | 5 => 151 + leap
  | 6 => 181 + leap
  | 7 => 212 + leap
  | 8 => 243 + leap
  | 9 => 273 + leap
  | 10 => 304 + leap
  | _ => 334 + leap
  end.

Definition leapDay (y : Z) : Z := if isLeap y then 1 else 0.

Definition MonthFromTime (t : Z) : Z :=
  MonthFromDay (leapDay (YearFromTime t)) (DayWithinYear t).

Definition DateFromTime (t : Z) : Z :=
  DayWithinYear t - monthStart (leapDay (YearFromTime t)) (MonthFromTime t) + 1.

Definition HourFromTime (t : Z) : Z := (t / 3600000) mod 24.
Definition MinFromTime (t : Z) : Z := (t / 60000) mod 60.
Definition SecFromTime (t : Z) : Z := (t / 1000) mod 60.
Definition msFromTime (t : Z) : Z := t mod 1000.

(** [n] on [k] decimal digits, zero-padded (low [k] digits of [n]). *)
Fixpoint pad (k : nat) (n : Z) : string :=
  match k with
  | O => EmptyString
  | S k' => pad k' (n / 10) ++ String (JS.digitChar (n mod 10)) EmptyString
  end.

Definition yearString (y : Z) : string :=
  if (0 <=? y) && (y <=? 9999) then pad 4 y
  else if y <? 0 then String "-" (pad 6 (- y))
  else String "+" (pad 6 y).

Definition toISOString (t : Z) : string :=
  yearString (YearFromTime t) ++ "-" ++ pad 2 (MonthFromTime t + 1) ++ "-"
  ++ pad 2 (DateFromTime t) ++ "T" ++ pad 2 (HourFromTime t) ++ ":"
  ++ pad 2 (MinFromTime t) ++ ":" ++ pad 2 (SecFromTime t) ++ "."
  ++ pad 3 (msFromTime t) ++ "Z".

(** The time values a [Date] can hold. *)
Definition validTime (t : Z) : Prop :=
  -8640000000000000 <= t <= 8640000000000000.

End JSDate.

(** ** src/components/S3FileUploader.tsx *)

Module S3FileUploader.

(** The fields of a browser [File] the component reads. *)
Record File := {
  name : string;
  type : string;
  fileSize : Z
}.

(** The filter of [handleFiles]: ZIP files and images, by media type. *)
Definition isValidFile (file : File) : bool :=
  String.eqb (type file) "application/zip"
  || String.eqb (type file) "application/x-zip-compressed"
  || JS.startsWith (type file) "image/".

(** [handleFiles]: the files selected and the alert shown, if one is. *)
Definition handleFiles (files : list File) : list File * option string :=
  let validFiles := filter isValidFile files in
  (validFiles,
   if negb (length validFiles =? length files)%nat
   then Some (JS.numberToString (Z.of_nat (length files) - Z.of_nat (length validFiles))
              ++ " files were skipped. Only ZIP and image files are supported.")
   else None).

Definition isColonOrDot (c : ascii) : bool := Ascii.eqb c ":" || Ascii.eqb c ".".

(** The key [uploadToS3] derives for [file] when the clock reads [now]. *)
Definition uploadKey (now : Z) (file : File) : string :=
  let timestamp := JS.replaceAll isColonOrDot "-" (JSDate.toISOString now) in
  let fileName := timestamp ++ "-" ++ name file in
  "uploads/" ++ fileName.

(** What [uploadData(...).result] settles to: the key the library
    returns, or the value it throws (the message of an [Error], if it is
    one). *)
Inductive UploadOutcome :=
| Uploaded (resultKey : string)
| Rejected (message : option string).

(** The network, for one batch: the outcome of each upload, and which of
    the values thrown reaches [Promise.all] first. *)
Record Uploads := {
  uploadData : string -> File -> UploadOutcome;
  firstRejected : list (option string) -> option string
}.

Record State := {
  selectedFiles : list File;
  uploadedFiles : list string
}.

Inductive Effect :=
| UploadCall (key : string) (file : File)
| OnFileUpload (files : list File)
| AlertShown (msg : string).

(** [selectedFiles.map(uploadToS3)]: every upload is started, the [i]-th
    reading the clock when its turn comes. *)
Fixpoint startUploads (clock : nat -> Z) (i : nat) (files : list File)
  : list (string * File) :=
  match files with
  | [] => []
  | file :: rest => (uploadKey (clock i) file, file) :: startUploads clock (S i) rest
  end.

(** [Promise.all]: the keys returned when every upload succeeds, else the
    values thrown. *)
Fixpoint settle (outcomes : list UploadOutcome) : list string * list (option string) :=
  match outcomes with
  | [] => ([], [])
  | Uploaded k :: rest => let '(ks, errs) := settle rest in (k :: ks, errs)
  | Rejected m :: rest => let '(ks, errs) := settle rest in (ks, m :: errs)
  end.

(** [handleUpload] *)
Definition handleUpload (net : Uploads) (clock : nat -> Z) (st : State)
  : State * list Effect :=
  if (length (selectedFiles st) =? 0)%nat then (st, [])
  else
    let started := startUploads clock 0 (selectedFiles st) in
    let calls := List.map (fun '(k, f) => UploadCall k f) started in
    let '(uploadedKeys, thrown) :=
      settle (List.map (fun '(k, f) => uploadData net k f) started) in
    match thrown with
    | [] =>
        ({| selectedFiles := []; uploadedFiles := uploadedKeys |},
         (calls ++ [OnFileUpload (selectedFiles st)])%list)
    | _ :: _ =>
        (st,
         (calls ++ [AlertShown
                      ("Upload failed. "
                       ++ match firstRejected net thrown with
                          | Some message => message
                          | None => "Please check the console for details."
                          end)])%list)
    end.

End S3FileUploader.

(** ** amplify/storage/resource.ts: access policy and upload triggers *)

Module Backend.

Inductive Action := read | write | delete.
Inductive Principal := guest | authenticated.

Definition Action_eqb (a b : Action) : bool :=
  match a, b with
  | read, read | write, write | delete, delete => true
  | _, _ => false
  end.

Definition Principal_eqb (a b : Principal) : bool :=
  match a, b with
  | guest, guest | authenticated, authenticated => true
  | _, _ => false
  end.

(** [allow.<principal>.to([...])] *)
Record Grant := {
  grantee : Principal;
  actions : list Action
}.

(** The [access] table of [defineStorage], in the order of the source. *)
Definition access : list (string * list Grant) :=
  [ ("public/uploads/*",   [ {| grantee := guest; actions := [read; write; delete] |} ]);
    ("public/results/*",   [ {| grantee := guest; actions := [read] |} ]);
    ("public/processed/*", [ {| grantee := guest; actions := [read] |} ]);
    ("uploads/*",          [ {| grantee := guest; actions := [read; write; delete] |} ]);
    ("results/*",          [ {| grantee := guest; actions := [read] |} ]);
    ("processed/*",        [ {| grantee := guest; actions := [read] |} ]) ].

(** The actions the table grants to [who] on the path pattern [pattern]. *)
Definition grantedOn (who : Principal) (pattern : string) (a : Action) : bool :=
  existsb
    (fun entry =>
       String.eqb (fst entry) pattern
       && existsb (fun g => Principal_eqb (grantee g) who
                            && existsb (Action_eqb a) (actions g))
                  (snd entry))
    access.

(** A pattern [p/*] covers the keys that start with [p/]. *)
Definition covers (pattern k : string) : bool :=
  let n := String.length pattern in
  if JS.endsWith pattern "/*"
  then JS.startsWith k (String.substring 0 (n - 1) pattern)
  else String.eqb pattern k.

(** [who] may do [a] on the object [k]: some entry covering [k] grants it. *)
Definition allowed (who : Principal) (a : Action) (k : string) : bool :=
  existsb
    (fun entry =>
       covers (fst entry) k
       && existsb (fun g => Principal_eqb (grantee g) who
                            && existsb (Action_eqb a) (actions g))
                  (snd entry))
    access.

(** *** Event notifications that start the processor *)

Record NotificationFilter := {
  prefix : string;
  suffix : string
}.

Definition imageExtensions : list string :=
  [".jpg"; ".jpeg"; ".png"; ".gif"; ".bmp"].

(** The calls of [addEventNotification], in the order of the source: the
    two for archives, then two per image extension. *)
Definition eventNotifications : list NotificationFilter :=
  [ {| prefix := "uploads/"; suffix := ".zip" |};
    {| prefix := "public/uploads/"; suffix := ".zip" |} ]
  ++ flat_map
       (fun ext => [ {| prefix := "uploads/"; suffix := ext |};
                     {| prefix := "public/uploads/"; suffix := ext |} ])
       imageExtensions.

(** A filter selects the keys that start with its prefix and end with its
    suffix, code unit for code unit. *)
Definition selects (f : NotificationFilter) (k : string) : bool :=
  JS.startsWith k (prefix f) && JS.endsWith k (suffix f).

(** The creation of object [k] starts the processor. *)
Definition triggersProcessor (k : string) : bool :=
  existsb (fun f => selects f k) eventNotifications.

(** The reading of the specification: the name ends, whatever the case,
    with an accepted image extension or is a ZIP archive. *)
Definition acceptedBySpec (name : string) : bool :=
  existsb (fun ext => JS.endsWith (JS.toLowerCase name) ext)
          (".zip" :: imageExtensions).

End Backend.

(** ** sagemaker/lifecycle_config_production.sh

    The script is run by a shell; a command either goes on or ends the
    shell with a status.  The machine decides what the external commands
    ([pip], [aws s3 cp], [python3]) do. *)

Module Lifecycle.

Record Machine := {
  activateStatus : Z;
  pipStatus : Z;
  copySucceeds : bool;
  pythonStatus : Z
}.

Record Shell := {
  files : list string;      (* files present in the working directory *)
  log : list string;        (* lines sent to /tmp/lifecycle.log *)
  started : list string;    (* programs run by [python3] *)
  status : Z                (* [$?] *)
}.

(** A step of a script: the shell goes on, or exits with a status. *)
Inductive Outcome :=
| Next (sh : Shell)
| Exited (code : Z) (sh : Shell).

Definition Script := Shell -> Outcome.

Definition andThen (c1 c2 : Script) : Script :=
  fun sh => match c1 sh with
            | Next sh' => c2 sh'
            | Exited code sh' => Exited code sh'
            end.

Notation "c1 ;; c2" := (andThen c1 c2) (at level 61, right associativity).

Definition setStatus (z : Z) (sh : Shell) : Shell :=
  {| files := files sh; log := log sh; started := started sh; status := z |}.

Definition echo (line : string) : Script :=
  fun sh => Next {| files := files sh; log := (log sh ++ [line])%list;
                    started := started sh; status := 0 |}.

(** A command whose only trace here is its status. *)
Definition command (z : Z) : Script := fun sh => Next (setStatus z sh).

Definition exit (code : Z) : Script := fun sh => Exited code sh.

Definition hasFile (f : string) (sh : Shell) : bool :=
  existsb (String.eqb f) (files sh).

Definition writeFile (f : string) : Script :=
  fun sh => Next {| files := if hasFile f sh then files sh else f :: files sh;
                    log := log sh; started := started sh; status := 0 |}.

(** [aws s3 cp s3://.../scripts/f f]: the file is there when the copy
    succeeds; a failed copy leaves the directory as it was. *)
Definition awsS3Cp (m : Machine) (f : string) : Script :=
  fun sh => if copySucceeds m then (writeFile f sh) else Next (setStatus 1 sh).

(** [if [ ! -f f ]; then body; fi] *)
Definition ifNotFile (f : string) (body : Script) : Script :=
  fun sh => if hasFile f sh then Next (setStatus 0 sh) else body sh.

Definition python3 (m : Machine) (f : string) : Script :=
  fun sh => Next {| files := files sh; log := log sh;
                    started := (started sh ++ [f])%list; status := pythonStatus m |}.

(** Status with which a shell that ran [c] to its end, or to an [exit],
    terminates, and the state it leaves. *)
Definition runShell (c : Script) (sh : Shell) : Z * Shell :=
  match c sh with
  | Next sh' => (status sh', sh')
  | Exited code sh' => (code, sh')
  end.

(** [sudo -u ec2-user bash << 'EOF' ... EOF]: a child shell runs [c]; the
    parent goes on with the child's status in [$?]. *)
Definition sudoBash (c : Script) : Script :=
  fun sh => let '(code, sh') := runShell c sh in Next (setStatus code sh').

Definition script : string := "bird_species_counter_production.py".

(** The commands of the here-document, run as ec2-user: first the
    set-up and the copy of the processing script from the bucket... *)
Definition fetch (m : Machine) : Script :=
  command 0 (* cd /home/ec2-user/SageMaker *) ;;
  command (activateStatus m) (* source .../activate *) ;;
  echo "Installing packages..." ;;
  command (pipStatus m) (* pip install --quiet boto3 pandas pillow *) ;;
  writeFile "/home/ec2-user/SageMaker/config.json" ;;
  command 0 (* chmod 644 config.json *) ;;
  echo "Configuration written: CONFIG_JSON_PLACEHOLDER" ;;
  echo "Copying production script from S3..." ;;
  awsS3Cp m script.

(** ... then the check that the script is there, and its launch. *)
Definition launch (m : Machine) : Script :=
  ifNotFile script
    (echo "ERROR: Failed to download script from S3" ;;
     exit 1) ;;
  command 0 (* chmod +x *) ;;
  echo "Running production script..." ;;
  python3 m script.

Definition runner (m : Machine) : Script := fetch m ;; launch m.

(** The whole onStart script. *)
Definition onStart (m : Machine) : Script :=
  echo "=== PRODUCTION LIFECYCLE STARTED ===" ;;
  sudoBash (runner m) ;;
  echo "=== PRODUCTION LIFECYCLE COMPLETED ===".

End Lifecycle.

(** ** The primary result table *)

Module PrimaryTable.

(** A row: [itemName] and [count]. *)
Definition Row : Type := string * Z.

Definition newline : string := String "010" EmptyString.

(** Modelled from the spec: the serializer of the primary table (the
    Aggregator that writes it runs in the processing function, which is not
    among the sources).  Delimited text, header row [itemName,count], one
    data row [itemName,count] per item, each line ended by a line feed. *)
Definition serializeRow (r : Row) : string :=
  fst r ++ "," ++ JS.numberToString (snd r).

Definition serialize (rows : list Row) : string :=
  String.concat "" (List.map (fun line => line ++ newline)
                             ("itemName,count" :: List.map serializeRow rows)).

(** The rows the Discovery client reads back from the text: its lines,
    less the header, each through the loop body of [checkForResults]. *)
Definition parse (csvText : string) : list Row :=
  flat_map (fun line => match ResultsChecker.parseRow line with
                        | Some r => [r]
                        | None => []
                        end)
           (skipn 1 (ResultsChecker.linesOf csvText)).

(** The largest integer below which every integer is a number of the
    source (2^53 - 1). *)
Definition maxSafeInteger : Z := 9007199254740991.

(** A row the text format carries unharmed: a non-empty name without
    comma or line feed, and a count that is not negative and that a number
    holds exactly. *)
Definition plainRow (r : Row) : bool :=
  JS.truthy (fst r)
  && negb (JS.includes (fst r) ",")
  && negb (JS.includes (fst r) newline)
  && (0 <=? snd r)
  && (snd r <=? maxSafeInteger).

End PrimaryTable.

(** ** src/components/BirdProcessingApp.tsx *)

Module BirdProcessingApp.
Import Storage.

(** An element of [csvData]. *)
Record EnhancedCSV := {
  csvKey : option string;
  csvLastModified : option Z;
  csvDownloadUrl : string;
  csvFilename : string
}.

Record State := {
  enhancedCSVs : list EnhancedCSV;
  isProcessing : bool
}.

(** [item.key?.includes('enhanced_bird_results') && item.key?.endsWith('.csv')] *)
Definition isEnhancedCsv (item : ListItem) : bool :=
  match key item with
  | Some k => JS.includes k "enhanced_bird_results" && JS.endsWith k ".csv"
  | None => false
  end.

(** [file.key?.split('/').pop() || 'unknown'] *)
Definition filenameOf (k : option string) : string :=
  match k with
  | Some k =>
      let last := List.last (JS.split "/" k) EmptyString in
      if JS.truthy last then last else "unknown"
  | None => "unknown"
  end.

(** The function mapped under [Promise.all]; [None] when [getUrl] throws
    (as it does on a missing key). *)
Definition describe (env : Storage.t) (now : Z) (file : ListItem)
  : option EnhancedCSV :=
  match key file with
  | Some k =>
      match getUrl env now k with
      | Some url =>
          Some {| csvKey := key file;
                  csvLastModified := lastModified file;
                  csvDownloadUrl := url;
                  csvFilename := filenameOf (key file) |}
      | None => None
      end
  | None => None
  end.

(** [Promise.all]: all the values, or the rejection. *)
Fixpoint promiseAll {A : Type} (l : list (option A)) : option (list A) :=
  match l with
  | [] => Some []
  | None :: _ => None
  | Some a :: rest =>
      match promiseAll rest with
      | Some l' => Some (a :: l')
      | None => None
      end
  end.

(** [new Date(b.lastModified!).getTime() - new Date(a.lastModified!).getTime()] *)
Definition byLastModifiedDesc (a b : EnhancedCSV) : option Z :=
  match csvLastModified b, csvLastModified a with
  | Some tb, Some ta => Some (tb - ta)
  | _, _ => None
  end.

(** [pollForResults]: the state it sets and the lines of [console.error].
    Whatever is thrown in the [try] block (by [list], by [filter] on
    missing [items], by a [getUrl]) lands in the one [catch]. *)
Definition pollForResults (env : Storage.t) (now : Z) (st : State)
  : State * list string :=
  let caught :=
    ({| enhancedCSVs := enhancedCSVs st; isProcessing := false |},
     ["Error polling for results:"]) in
  match list_ env "public/results/" with
  | None => caught
  | Some result =>
      match items result with
      | None => caught
      | Some its =>
          let csvFiles := filter isEnhancedCsv its in
          match promiseAll (List.map (describe env now) csvFiles) with
          | None => caught
          | Some csvData =>
              ({| enhancedCSVs := JS.sort byLastModifiedDesc csvData;
                  isProcessing := false |}, [])
          end
      end
  end.

(** [handleFileUpload], up to the timer it sets. *)
Definition handleFileUpload (st : State) : State :=
  {| enhancedCSVs := enhancedCSVs st; isProcessing := true |}.

End BirdProcessingApp.

(** ** Vocabulary of the statements *)

(** [l1] is [l2] with some elements left out, order kept. *)
Inductive Subsequence {A : Type} : list A -> list A -> Prop :=
| Subsequence_nil : Subsequence [] []
| Subsequence_keep x l1 l2 : Subsequence l1 l2 -> Subsequence (x :: l1) (x :: l2)
| Subsequence_drop x l1 l2 : Subsequence l1 l2 -> Subsequence l1 (x :: l2).

(** Ordered by descending [f]: every element is at least those after it. *)
Definition Descending {A : Type} (f : A -> Z) (l : list A) : Prop :=
  StronglySorted (fun a b => f b <= f a) l.

(** The keys of the entries that have one. *)
Definition keysOf (files : list Storage.ListItem) : list string :=
  flat_map (fun f => match Storage.key f with Some k => [k] | None => [] end) files.

(** The time of an entry of the enhanced listing, read as the epoch when it
    is missing. *)
Definition epochTime (c : Storage.CSVFile) : Z :=
  match Storage.pathLastModified c with Some t => t | None => 0 end.

(** The listing of the results namespace a run of the client works on:
    empty when the call throws or answers without [items]. *)
Definition listing (env : Storage.t) : list Storage.ListItem :=
  match Storage.list_ env "public/results/" with
  | Some out => match Storage.items out with Some its => its | None => [] end
  | None => []
  end.

(** An entry, its retrieval handle set aside. *)
Definition withoutUrl (r : ResultsChecker.ProcessingResult)
  : ResultsChecker.ProcessingResult :=
  {| ResultsChecker.filename := ResultsChecker.filename r;
     ResultsChecker.birdCount := ResultsChecker.birdCount r;
     ResultsChecker.extractionFolder := ResultsChecker.extractionFolder r;
     ResultsChecker.csvKey := ResultsChecker.csvKey r;
     ResultsChecker.downloadUrl := EmptyString;
     ResultsChecker.timestamp := ResultsChecker.timestamp r |}.

(** The effects of a run, the handles of the entries delivered set aside. *)
Definition forgetHandles (effs : list ResultsChecker.Effect)
  : list ResultsChecker.Effect :=
  List.map (fun e => match e with
                     | ResultsChecker.OnResultsFound rs =>
                         ResultsChecker.OnResultsFound (List.map withoutUrl rs)
                     | _ => e
                     end) effs.

(** The client at rest: no check under way, none done yet. *)
Definition idle : ResultsChecker.State :=
  {| ResultsChecker.isChecking := false; ResultsChecker.lastCheck := None |}.

(** The ten decimal digits. *)
Definition isDigit (c : ascii) : Prop := exists d, 0 <= d <= 9 /\ c = JS.digitChar d.

(** [c] occurs in [s]. *)
Fixpoint occurs (c : ascii) (s : string) : bool :=
  match s with
  | EmptyString => false
  | String a s' => Ascii.eqb a c || occurs c s'
  end.

(** Some code unit of [s] is not white space. *)
Definition hasInk (s : string) : bool :=
  existsb (fun c => negb (JS.isWhiteSpace c)) (list_ascii_of_string s).

(** A key under a results or processed path. *)
Definition underResults (k : string) : Prop :=
  JS.startsWith k "results/" = true
  \/ JS.startsWith k "processed/" = true
  \/ JS.startsWith k "public/results/" = true
  \/ JS.startsWith k "public/processed/" = true.

(** A key under an uploads path. *)
Definition underUploads (k : string) : Prop :=
  JS.startsWith k "uploads/" = true
  \/ JS.startsWith k "public/uploads/" = true.

(** The text after the header: one ended line per row. *)
Definition body (rows : list PrimaryTable.Row) : string :=
  String.concat "" (List.map (fun line => line ++ PrimaryTable.newline)
                             (List.map PrimaryTable.serializeRow rows)).

(** The directory once [f] has been written. *)
Definition withFile (f : string) (l : list string) : list string :=
  if existsb (String.eqb f) l then l else f :: l.

(** The first two comma-separated fields of [line] are there and not
    empty. *)
Definition hasTwoFields (line : string) : bool :=
  match JS.split "," line with
  | field1 :: field2 :: _ => JS.truthy field1 && JS.truthy field2
  | _ => false
  end.

(** The uploads started, the batches handed to the consumer and the alerts
    shown by a run of [handleUpload]. *)
Definition uploadCalls (effs : list S3FileUploader.Effect)
  : list (string * S3FileUploader.File) :=
  flat_map (fun e => match e with
                     | S3FileUploader.UploadCall k f => [(k, f)]
                     | _ => []
                     end) effs.

Definition handedOver (effs : list S3FileUploader.Effect)
  : list (list S3FileUploader.File) :=
  flat_map (fun e => match e with
                     | S3FileUploader.OnFileUpload fs => [fs]
                     | _ => []
                     end) effs.

Definition alerts (effs : list S3FileUploader.Effect) : list string :=
  flat_map (fun e => match e with
                     | S3FileUploader.AlertShown msg => [msg]
                     | _ => []
                     end) effs.

(** ** Store states used as examples *)

Module Examples.
Import Storage.

Definition lineFeed : string := String "010" EmptyString.

Definition tableKey : string := "public/results/bird-results-2024-01-02T03-04-05.csv".

(** A namespace whose only table has the header row and no data row. *)
Definition tableItem : ListItem :=
  {| key := Some tableKey; lastModified := Some 1704164645000 |}.

Definition headerOnlyStore : Storage.t :=
  {| list_ := fun _ => Some {| items := Some [tableItem] |};
     listAll := fun _ => Some [];
     downloadData := fun k =>
       if String.eqb k tableKey then Some ("itemName,count" ++ lineFeed) else None;
     getUrl := fun _ k => Some ("https://bucket.example/" ++ k) |}.

(** The same namespace, the table having two data rows. *)
Definition twoRowStore : Storage.t :=
  {| list_ := list_ headerOnlyStore;
     listAll := fun _ => Some [];
     downloadData := fun k =>
       if String.eqb k tableKey
       then Some ("itemName,count" ++ lineFeed ++ "a.jpg,2" ++ lineFeed
                  ++ "b.png,5" ++ lineFeed)
       else None;
     getUrl := fun _ k => Some ("https://bucket.example/" ++ k) |}.

(** A namespace with no table at all, only an unrelated object. *)
Definition readmeItem : ListItem :=
  {| key := Some "public/results/readme.txt"; lastModified := Some 1 |}.

Definition readmeFile : CSVFile :=
  {| path := "public/results/readme.txt"; pathLastModified := Some 1;
     size := Some 10; downloadUrl := None |}.

Definition emptyStore : Storage.t :=
  {| list_ := fun _ => Some {| items := Some [readmeItem] |};
     listAll := fun _ => Some [readmeFile];
     downloadData := fun _ => None;
     getUrl := fun _ _ => None |}.

(** Two enhanced tables, the first listed without last-modified time. *)
Definition untimed : CSVFile :=
  {| path := "public/results/enhanced_bird_results_a.csv";
     pathLastModified := None; size := Some 10; downloadUrl := None |}.

Definition timed : CSVFile :=
  {| path := "public/results/enhanced_bird_results_b.csv";
     pathLastModified := Some 5; size := Some 10; downloadUrl := None |}.

Definition untimedStore : Storage.t :=
  {| list_ := fun _ => Some {| items := Some [] |};
     listAll := fun _ => Some [untimed; timed];
     downloadData := fun _ => None;
     getUrl := fun _ _ => None |}.

(** A namespace with a primary table listed without time, a newer
    enhanced table and an older one, listed oldest first. *)
Definition olderEnhanced : CSVFile :=
  {| path := "public/results/enhanced_bird_results_1.csv";
     pathLastModified := Some 10; size := Some 10; downloadUrl := None |}.

Definition newerEnhanced : CSVFile :=
  {| path := "public/results/enhanced_bird_results_2.csv";
     pathLastModified := Some 20; size := Some 10; downloadUrl := None |}.

Definition mixedItems : list ListItem :=
  [ {| key := Some "public/results/bird-results-1.csv"; lastModified := None |};
    {| key := Some "public/results/enhanced_bird_results_1.csv";
       lastModified := Some 10 |};
    {| key := Some "public/results/notes.txt"; lastModified := Some 15 |};
    {| key := Some "public/results/enhanced_bird_results_2.csv";
       lastModified := Some 20 |} ].

Definition mixedStore : Storage.t :=
  {| list_ := fun _ => Some {| items := Some mixedItems |};
     listAll := fun _ => Some [olderEnhanced; readmeFile; newerEnhanced];
     downloadData := fun _ => Some ("itemName,count" ++ lineFeed ++ "a.jpg,2" ++ lineFeed);
     getUrl := fun _ k => Some ("https://bucket.example/" ++ k) |}.

(** The two-row namespace, the handle carrying the time it was signed at
    and its lifetime, as a presigned URL does. *)
Definition signingStore : Storage.t :=
  {| list_ := list_ twoRowStore;
     listAll := listAll twoRowStore;
     downloadData := downloadData twoRowStore;
     getUrl := fun now k =>
       Some ("https://bucket.example/" ++ k ++ "?X-Amz-Date="
             ++ JS.numberToString now ++ "&X-Amz-Expires=3600") |}.

Definition viewerStart : EnhancedCSVViewer.State :=
  {| EnhancedCSVViewer.csvFiles := [];
     EnhancedCSVViewer.loading := true;
     EnhancedCSVViewer.error := None |}.

End Examples.

(** ** Uploads and machines used as examples *)

Module UploadExamples.
Import S3FileUploader.

(** A photograph as cameras name them, extension in upper case. *)
Definition cameraPhoto : File :=
  {| name := "IMG_0001.JPG"; type := "image/jpeg"; fileSize := 2048 |}.

Definition notes : File :=
  {| name := "notes.txt"; type := "text/plain"; fileSize := 12 |}.

Definition archive : File :=
  {| name := "birds.zip"; type := "application/zip"; fileSize := 4096 |}.

(** 2024-02-29T12:30:45.123Z *)
Definition leapDayNoon : Z := 1709209845123.

(** A machine on which the copy from the bucket fails. *)
Definition offline : Lifecycle.Machine :=
  {| Lifecycle.activateStatus := 0; Lifecycle.pipStatus := 0;
     Lifecycle.copySucceeds := false; Lifecycle.pythonStatus := 0 |}.

(** A fresh notebook volume. *)
Definition fresh : Lifecycle.Shell :=
  {| Lifecycle.files := []; Lifecycle.log := [];
     Lifecycle.started := []; Lifecycle.status := 0 |}.

(** Its state once the copy step of the runner has failed on it. *)
Definition afterFailedCopy : Lifecycle.Shell :=
  {| Lifecycle.files := ["/home/ec2-user/SageMaker/config.json"];
     Lifecycle.log := ["Installing packages...";
                       "Configuration written: CONFIG_JSON_PLACEHOLDER";
                       "Copying production script from S3..."];
     Lifecycle.started := [];
     Lifecycle.status := 1 |}.

End UploadExamples.

(** ** More machines, volumes and networks used as examples *)

Module MoreExamples.
Import UploadExamples.

(** A machine on which the copy succeeds and the program ends well. *)
Definition online : Lifecycle.Machine :=
  {| Lifecycle.activateStatus := 0; Lifecycle.pipStatus := 0;
     Lifecycle.copySucceeds := true; Lifecycle.pythonStatus := 0 |}.

(** The state of a fresh volume once the copy has succeeded on it. *)
Definition afterCopy : Lifecycle.Shell :=
  {| Lifecycle.files := [Lifecycle.script; "/home/ec2-user/SageMaker/config.json"];
     Lifecycle.log := ["Installing packages...";
                       "Configuration written: CONFIG_JSON_PLACEHOLDER";
                       "Copying production script from S3..."];
     Lifecycle.started := [];
     Lifecycle.status := 0 |}.

(** A volume that holds the script of an earlier start. *)
Definition usedVolume : Lifecycle.Shell :=
  {| Lifecycle.files := [Lifecycle.script; "/home/ec2-user/SageMaker/config.json"];
     Lifecycle.log := []; Lifecycle.started := []; Lifecycle.status := 0 |}.

(** A network on which every upload succeeds, and one that refuses
    archives. *)
Definition reliable : S3FileUploader.Uploads :=
  {| S3FileUploader.uploadData := fun k _ => S3FileUploader.Uploaded k;
     S3FileUploader.firstRejected := fun thrown => List.hd None thrown |}.

Definition noArchives : S3FileUploader.Uploads :=
  {| S3FileUploader.uploadData := fun k f =>
       if String.eqb (S3FileUploader.type f) "application/zip"
       then S3FileUploader.Rejected (Some "Access Denied")
       else S3FileUploader.Uploaded k;
     S3FileUploader.firstRejected := fun thrown => List.hd None thrown |}.

(** A clock that stands still during the batch. *)
Definition stopped : nat -> Z := fun _ => leapDayNoon.

Definition batch : S3FileUploader.State :=
  {| S3FileUploader.selectedFiles := [archive; cameraPhoto];
     S3FileUploader.uploadedFiles := [] |}.

End MoreExamples.

(** * Properties *)

(** ** Lists *)

Section SubsequenceFacts.
Context {A : Type}.

Lemma Subsequence_refl (l : list A) : Subsequence l l.
Proof. induction l; constructor; assumption. Qed.

Lemma Subsequence_nil_l (l : list A) : Subsequence [] l.
Proof. induction l; constructor; assumption. Qed.

Lemma Subsequence_In (l1 l2 : list A) :
  Subsequence l1 l2 -> forall x, In x l1 -> In x l2.
Proof.
  induction 1 as [|y l1 l2 _ IH|y l1 l2 _ IH]; intros x Hx; simpl in *.
  - contradiction.
  - destruct Hx as [->|Hx]; [left; reflexivity | right; apply IH, Hx].
  - right; apply IH, Hx.
Qed.

Lemma Subsequence_length (l1 l2 : list A) :
  Subsequence l1 l2 -> (length l1 <= length l2)%nat.
Proof. induction 1; simpl; lia. Qed.

Lemma Subsequence_app (l1 l2 k1 k2 : list A) :
  Subsequence l1 l2 -> Subsequence k1 k2 -> Subsequence (l1 ++ k1) (l2 ++ k2).
Proof. induction 1; simpl; intros; try constructor; auto. Qed.

Lemma Subsequence_trans (l1 l2 l3 : list A) :
  Subsequence l1 l2 -> Subsequence l2 l3 -> Subsequence l1 l3.
Proof.
  intros H12 H23; revert l1 H12.
  induction H23 as [|x l2 l3 _ IH|x l2 l3 _ IH]; intros l1 H12.
  - exact H12.
  - inversion H12; subst; constructor; apply IH; assumption.
  - constructor; apply IH; assumption.
Qed.

Lemma Subsequence_sorted (R : A -> A -> Prop) (l1 l2 : list A) :
  Subsequence l1 l2 -> StronglySorted R l2 -> StronglySorted R l1.
Proof.
  induction 1 as [|y l1 l2 Hs IH|y l1 l2 Hs IH]; intros Hsorted.
  - constructor.
  - inversion Hsorted as [|? ? Hrest Hall]; subst.
    constructor; [apply IH, Hrest|].
    rewrite Forall_forall in *. intros z Hz.
    apply Hall. eapply Subsequence_In; eassumption.
  - inversion Hsorted; subst. apply IH; assumption.
Qed.

Lemma firstn_Subsequence (n : nat) (l : list A) : Subsequence (firstn n l) l.
Proof.
  revert n; induction l as [|x l IH]; intros [|n]; simpl;
    try constructor; auto using Subsequence_nil_l.
Qed.

(** In a strongly sorted list, whatever is cut off after the first [n]
    is related to each of the first [n]. *)
Lemma sorted_firstn_skipn (R : A -> A -> Prop) (n : nat) (l : list A) :
  StronglySorted R l ->
  forall a b, In a (firstn n l) -> In b (skipn n l) -> R a b.
Proof.
  intros Hsorted; revert n.
  induction Hsorted as [|x l Hrest IH Hall]; intros n a b Ha Hb.
  - destruct n; simpl in Ha; contradiction.
  - destruct n as [|n]; simpl in *; [contradiction|].
    destruct Ha as [<-|Ha].
    + rewrite Forall_forall in Hall. apply Hall.
      rewrite <- (firstn_skipn n l). apply in_or_app; right; exact Hb.
    + eapply IH; eassumption.
Qed.
End SubsequenceFacts.

(** ** [Array.prototype.sort] *)

Section SortFacts.
Context {A : Type} (cmp : A -> A -> option Z).

Lemma insert_Permutation (x : A) (l : list A) :
  Permutation (x :: l) (JS.insert cmp x l).
Proof.
  induction l as [|y l IH]; simpl; [reflexivity|].
  destruct (JS.sortCompare cmp x y <=? 0); [reflexivity|].
  rewrite perm_swap. apply perm_skip, IH.
Qed.

(** The sort only reorders. *)
Lemma sort_Permutation (l : list A) : Permutation l (JS.sort cmp l).
Proof.
  induction l as [|x l IH]; simpl; [constructor|].
  rewrite <- insert_Permutation. apply perm_skip, IH.
Qed.

Lemma sort_In (l : list A) (x : A) : In x (JS.sort cmp l) <-> In x l.
Proof.
  split; apply Permutation_in;
    [symmetry|]; apply sort_Permutation.
Qed.

Lemma sort_length (l : list A) : length (JS.sort cmp l) = length l.
Proof. symmetry; apply Permutation_length, sort_Permutation. Qed.

(** With a comparator that subtracts the values of a key, the result is
    ordered by descending key. *)
Section ByKey.
Variable f : A -> Z.
Hypothesis cmp_key : forall x y, cmp x y = Some (f y - f x).

Lemma insert_Descending (x : A) (l : list A) :
  Descending f l -> Descending f (JS.insert cmp x l).
Proof.
  unfold Descending.
  induction 1 as [|y l Hrest IH Hall]; simpl.
  - repeat constructor.
  - unfold JS.sortCompare; rewrite cmp_key; simpl.
    destruct (Z.leb_spec (f y - f x) 0) as [Hle|Hgt].
    + constructor; [constructor; assumption|].
      constructor; [lia|].
      rewrite Forall_forall in *. intros z Hz.
      specialize (Hall z Hz). lia.
    + constructor; [exact IH|].
      rewrite Forall_forall in *. intros z Hz.
      apply (Permutation_in _ (Permutation_sym (insert_Permutation x l))) in Hz.
      destruct Hz as [<-|Hz]; [lia | apply Hall, Hz].
Qed.

Lemma sort_Descending (l : list A) : Descending f (JS.sort cmp l).
Proof.
  induction l as [|x l IH]; simpl.
  - constructor.
  - apply insert_Descending, IH.
Qed.
End ByKey.
End SortFacts.

(** ** The Discovery client ([checkForResults]) *)

Module ResultsCheckerFacts.
Import Storage ResultsChecker.

Lemma keysOf_app (l1 l2 : list ListItem) :
  keysOf (l1 ++ l2) = (keysOf l1 ++ keysOf l2)%list.
Proof. unfold keysOf. apply flat_map_app. Qed.

Lemma keysOf_length (l : list ListItem) : (length (keysOf l) <= length l)%nat.
Proof.
  induction l as [|f l IH]; simpl; [lia|].
  destruct (key f); simpl; lia.
Qed.

Lemma keysOf_Subsequence (l1 l2 : list ListItem) :
  Subsequence l1 l2 -> Subsequence (keysOf l1) (keysOf l2).
Proof.
  induction 1 as [|x l1 l2 _ IH|x l1 l2 _ IH].
  - constructor.
  - change (x :: l1) with ([x] ++ l1)%list.
    change (x :: l2) with ([x] ++ l2)%list.
    rewrite !keysOf_app. apply Subsequence_app; [apply Subsequence_refl | exact IH].
  - change (x :: l2) with ([x] ++ l2)%list.
    rewrite keysOf_app.
    change (keysOf l1) with ([] ++ keysOf l1)%list.
    apply Subsequence_app; [apply Subsequence_nil_l | exact IH].
Qed.

Lemma downloads_app (e1 e2 : list Effect) :
  downloads (e1 ++ e2) = (downloads e1 ++ downloads e2)%list.
Proof. apply flat_map_app. Qed.

Lemma delivered_app (e1 e2 : list Effect) :
  delivered (e1 ++ e2) = (delivered e1 ++ delivered e2)%list.
Proof. apply flat_map_app. Qed.

Lemma errors_app (e1 e2 : list Effect) :
  errors (e1 ++ e2) = (errors e1 ++ errors e2)%list.
Proof. apply flat_map_app. Qed.

(** One turn of the loop downloads at most the file's own key, delivers
    nothing by itself, and pushes an entry only under that key. *)
Lemma processFile_spec (env : Storage.t) (now : Z) (file : ListItem) :
  Subsequence (downloads (fst (processFile env now file))) (keysOf [file])
  /\ delivered (fst (processFile env now file)) = []
  /\ Subsequence
       (match snd (processFile env now file) with
        | Some r => [csvKey r]
        | None => []
        end)
       (keysOf [file]).
Proof.
  unfold processFile, keysOf; simpl.
  destruct (key file) as [k|]; simpl; [|repeat split; constructor].
  destruct (JS.truthy k); simpl; [|repeat split; repeat constructor].
  destruct (downloadData env k) as [csvText|]; simpl;
    [|repeat split; repeat constructor].
  destruct (length (linesOf csvText) <? 2)%nat; simpl;
    [repeat split; repeat constructor|].
  destruct (countRows _) as [totalBirds fileCount].
  destruct (getUrl env now k); simpl; repeat split; repeat constructor.
Qed.

Lemma processFiles_cons (env : Storage.t) (now : Z) (file : ListItem) (rest : list ListItem) :
  processFiles env now (file :: rest)
  = ((fst (processFile env now file) ++ fst (processFiles env now rest))%list,
     match snd (processFile env now file) with
     | Some r => r :: snd (processFiles env now rest)
     | None => snd (processFiles env now rest)
     end).
Proof.
  simpl. destruct (processFile env now file) as [e1 r1].
  destruct (processFiles env now rest) as [e2 r2]. reflexivity.
Qed.

Lemma processFiles_spec (env : Storage.t) (now : Z) (files : list ListItem) :
  Subsequence (downloads (fst (processFiles env now files))) (keysOf files)
  /\ delivered (fst (processFiles env now files)) = []
  /\ Subsequence (List.map csvKey (snd (processFiles env now files))) (keysOf files).
Proof.
  induction files as [|file rest (IHd & IHv & IHr)].
  - simpl; repeat split; constructor.
  - rewrite processFiles_cons; cbn [fst snd].
    destruct (processFile_spec env now file) as (Hd & Hv & Hr).
    change (file :: rest) with ([file] ++ rest)%list.
    rewrite keysOf_app, downloads_app, delivered_app, Hv, IHv.
    repeat split.
    + apply Subsequence_app; assumption.
    + destruct (snd (processFile env now file)) as [r|]; simpl List.map.
      * change (csvKey r :: List.map csvKey (snd (processFiles env now rest)))
          with ([csvKey r] ++ List.map csvKey (snd (processFiles env now rest)))%list.
        apply Subsequence_app; assumption.
      * change (List.map csvKey (snd (processFiles env now rest)))
          with ([] ++ List.map csvKey (snd (processFiles env now rest)))%list.
        apply Subsequence_app; assumption.
Qed.

(** The effects of a run that is let in and gets a listing: the loop runs
    over the first five CSV files and its [results] are delivered once. *)
Lemma checkForResults_listed (env : Storage.t) (now : Z) (st : State)
      (its : list ListItem) :
  isChecking st = false ->
  list_ env "public/results/" = Some {| items := Some its |} ->
  exists pre,
    downloads pre = [] /\ delivered pre = [] /\ errors pre = [] /\
    snd (checkForResults env now st)
    = (pre ++ fst (processFiles env now (firstn 5 (csvFilesOf its)))
           ++ [OnResultsFound (snd (processFiles env now (firstn 5 (csvFilesOf its))))])%list.
Proof.
  intros Hidle Hlist. unfold checkForResults. rewrite Hidle, Hlist; simpl items.
  exists [ConsoleLog "Checking for new CSV results..."; ListCall "public/results/";
          ConsoleLog ("Found "
                      ++ JS.numberToString (Z.of_nat (length (csvFilesOf its)))
                      ++ " CSV files")].
  repeat split.
  unfold JS.slice0.
  destruct (csvFilesOf its) as [|f fs] eqn:Hcsv.
  - reflexivity.
  - cbn [length Nat.eqb].
    destruct (processFiles env now (firstn 5 (f :: fs))) as [effs results].
    reflexivity.
Qed.

(** In every other case nothing is downloaded and nothing delivered. *)
Lemma checkForResults_not_listed (env : Storage.t) (now : Z) (st : State) :
  isChecking st = true
  \/ list_ env "public/results/" = None
  \/ list_ env "public/results/" = Some {| items := None |} ->
  downloads (snd (checkForResults env now st)) = []
  /\ delivered (snd (checkForResults env now st)) = [].
Proof.
  unfold checkForResults.
  intros [H|[H|H]]; destruct (isChecking st); try (split; reflexivity);
    try discriminate; rewrite H; split; reflexivity.
Qed.

End ResultsCheckerFacts.

Module DiscoveryProperties.
Import Storage ResultsChecker ResultsCheckerFacts.

Lemma csvFilesOf_In (its : list ListItem) (f : ListItem) :
  In f (csvFilesOf its) <-> In f its /\ isCsv f = true.
Proof. unfold csvFilesOf. rewrite sort_In, filter_In. reflexivity. Qed.

Lemma csvFilesOf_Descending (its : list ListItem) :
  Descending timeOf (csvFilesOf its).
Proof. apply sort_Descending. reflexivity. Qed.

Lemma isCsv_key (f : ListItem) :
  isCsv f = true ->
  exists k, key f = Some k /\ JS.endsWith k ".csv" = true /\ JS.truthy k = true.
Proof.
  unfold isCsv. destruct (key f) as [k|]; [|discriminate].
  intros H. exists k. repeat split; [exact H|].
  destruct k; [discriminate H | reflexivity].
Qed.

Lemma keysOf_In (files : list ListItem) (k : string) :
  In k (keysOf files) <-> exists f, In f files /\ key f = Some k.
Proof.
  unfold keysOf. rewrite in_flat_map. split.
  - intros (f & Hf & Hk). exists f. split; [exact Hf|].
    destruct (key f); simpl in Hk; [|contradiction].
    destruct Hk as [->|[]]. reflexivity.
  - intros (f & Hf & Hk). exists f. split; [exact Hf|].
    rewrite Hk. left; reflexivity.
Qed.

(** C9. However many tables the namespace holds, a run downloads and
    reports entries only for files among the first five of the CSV files
    in descending order of modification, and these five are at least as
    recent as every CSV file left out; a delivered list has at most five
    entries. *)
Theorem at_most_five_most_recent (env : Storage.t) (now : Z) (st : State) :
  let csvFiles := csvFilesOf (listing env) in
  let recent := firstn 5 csvFiles in
  let effs := snd (checkForResults env now st) in
  (length recent <= 5)%nat
  /\ (forall a b, In a recent -> In b (skipn 5 csvFiles) -> timeOf b <= timeOf a)
  /\ Subsequence (downloads effs) (keysOf recent)
  /\ (length (downloads effs) <= 5)%nat
  /\ (forall rs, In rs (delivered effs) ->
        (length rs <= 5)%nat /\ Subsequence (List.map csvKey rs) (keysOf recent)).
Proof.
  intros csvFiles recent effs.
  assert (Hlen : (length recent <= 5)%nat) by apply firstn_le_length.
  assert (Hkeys : (length (keysOf recent) <= 5)%nat)
    by (etransitivity; [apply keysOf_length | exact Hlen]).
  split; [exact Hlen|].
  split.
  { intros a b Ha Hb.
    exact (sorted_firstn_skipn _ 5 csvFiles (csvFilesOf_Descending _) a b Ha Hb). }
  assert (Hquiet : downloads effs = [] /\ delivered effs = [] ->
                   Subsequence (downloads effs) (keysOf recent)
                   /\ (length (downloads effs) <= 5)%nat
                   /\ (forall rs, In rs (delivered effs) ->
                         (length rs <= 5)%nat
                         /\ Subsequence (List.map csvKey rs) (keysOf recent))).
  { intros [-> ->]. repeat split; try contradiction; simpl; try lia.
    apply Subsequence_nil_l. }
  destruct (isChecking st) eqn:Hbusy.
  { apply Hquiet, checkForResults_not_listed. left; exact Hbusy. }
  destruct (list_ env "public/results/") as [[[its|]]|] eqn:Hlist.
  - destruct (checkForResults_listed env now st its Hbusy Hlist)
      as (pre & Hd & Hv & _ & Heffs).
    assert (Hits : listing env = its) by (unfold listing; rewrite Hlist; reflexivity).
    subst effs recent csvFiles. rewrite Hits in *. rewrite Heffs.
    destruct (processFiles_spec env now (firstn 5 (csvFilesOf its))) as (Pd & Pv & Pr).
    rewrite !downloads_app, !delivered_app, Hd, Hv, Pv; simpl.
    rewrite app_nil_r.
    repeat split.
    + exact Pd.
    + etransitivity; [apply Subsequence_length, Pd | exact Hkeys].
    + destruct H as [<-|[]].
      rewrite <- (length_map csvKey).
      etransitivity; [apply Subsequence_length, Pr | exact Hkeys].
    + destruct H as [<-|[]]. exact Pr.
  - apply Hquiet, checkForResults_not_listed. right; right; exact Hlist.
  - apply Hquiet, checkForResults_not_listed. right; left; exact Hlist.
Qed.

Lemma forgetHandles_app (e1 e2 : list Effect) :
  forgetHandles (e1 ++ e2) = (forgetHandles e1 ++ forgetHandles e2)%list.
Proof. apply map_app. Qed.

(** One turn of the loop at two times at which the retrieval of the handle
    succeeds or fails alike: the same effects, and the same entry but for
    the handle. *)
Lemma processFile_two_times (env : Storage.t) (now1 now2 : Z) (file : ListItem) :
  (forall k, getUrl env now1 k = None <-> getUrl env now2 k = None) ->
  fst (processFile env now2 file) = fst (processFile env now1 file)
  /\ forgetHandles (fst (processFile env now1 file)) = fst (processFile env now1 file)
  /\ option_map withoutUrl (snd (processFile env now2 file))
     = option_map withoutUrl (snd (processFile env now1 file)).
Proof.
  intros Halike. unfold processFile.
  destruct (key file) as [k|]; [|repeat split].
  destruct (JS.truthy k); cbn [negb]; [|repeat split].
  destruct (downloadData env k) as [csvText|]; [|repeat split].
  destruct (length (linesOf csvText) <? 2)%nat; [repeat split|].
  destruct (countRows (skipn 1 (linesOf csvText))) as [totalBirds fileCount].
  specialize (Halike k).
  destruct (getUrl env now1 k) as [url1|], (getUrl env now2 k) as [url2|];
    try (repeat split; fail).
  - destruct Halike as [_ H]. discriminate (H eq_refl).
  - destruct Halike as [H _]. discriminate (H eq_refl).
Qed.

Lemma processFiles_two_times (env : Storage.t) (now1 now2 : Z) (files : list ListItem) :
  (forall k, getUrl env now1 k = None <-> getUrl env now2 k = None) ->
  fst (processFiles env now2 files) = fst (processFiles env now1 files)
  /\ forgetHandles (fst (processFiles env now1 files)) = fst (processFiles env now1 files)
  /\ List.map withoutUrl (snd (processFiles env now2 files))
     = List.map withoutUrl (snd (processFiles env now1 files)).
Proof.
  intros Halike. induction files as [|file rest (IHe & IHf & IHr)].
  - repeat split.
  - rewrite !processFiles_cons; cbn [fst snd].
    destruct (processFile_two_times env now1 now2 file Halike) as (He & Hf & Hr).
    rewrite He, IHe, forgetHandles_app, Hf, IHf.
    repeat split.
    destruct (snd (processFile env now1 file)) as [r1|],
             (snd (processFile env now2 file)) as [r2|];
      cbn [option_map] in Hr; try discriminate; cbn [List.map].
    + f_equal; [congruence | exact IHr].
    + exact IHr.
Qed.

(** C3, as the code has it.  Two runs in a row against the same state of
    the store, at two times at which the retrieval of a handle succeeds or
    fails alike, whatever state the component starts from: the same calls,
    and the same result sequence delivered, entry for entry and field for
    field, but for the retrieval handle, which is minted at each call; where
    the handles of the two times are the same, so are the sequences. *)
Theorem discovery_repeatable_but_for_handles
        (env : Storage.t) (now1 now2 : Z) (st : State) :
  (forall k, getUrl env now1 k = None <-> getUrl env now2 k = None) ->
  let first := checkForResults env now1 st in
  let second := checkForResults env now2 (fst first) in
  forgetHandles (snd second) = forgetHandles (snd first)
  /\ List.map (List.map withoutUrl) (delivered (snd second))
     = List.map (List.map withoutUrl) (delivered (snd first))
  /\ downloads (snd second) = downloads (snd first)
  /\ ((forall k, getUrl env now2 k = getUrl env now1 k) -> snd second = snd first).
Proof.
  intros Halike. cbv zeta.
  assert (Hrun : forall now, isChecking st = false ->
             isChecking (fst (checkForResults env now st)) = false).
  { intros now Hidle. unfold checkForResults. rewrite Hidle.
    destruct (list_ env "public/results/") as [[[its|]]|]; cbn [items];
      try reflexivity.
    destruct (length (csvFilesOf its) =? 0)%nat; [reflexivity|].
    destruct (processFiles env now (JS.slice0 5 (csvFilesOf its))); reflexivity. }
  assert (Hstate : forall now st', isChecking st' = isChecking st ->
             snd (checkForResults env now st') = snd (checkForResults env now st)).
  { intros now st' Hst. unfold checkForResults. rewrite Hst.
    destruct (isChecking st); [reflexivity|].
    destruct (list_ env "public/results/") as [[[its|]]|]; cbn [items];
      try reflexivity.
    destruct (length (csvFilesOf its) =? 0)%nat; [reflexivity|].
    destruct (processFiles env now (JS.slice0 5 (csvFilesOf its))); reflexivity. }
  assert (Hsecond : snd (checkForResults env now2 (fst (checkForResults env now1 st)))
                    = snd (checkForResults env now2 st)).
  { apply Hstate. case_eq (isChecking st); intros Hbusy.
    - unfold checkForResults. rewrite Hbusy. exact Hbusy.
    - apply Hrun, Hbusy. }
  rewrite Hsecond. clear Hsecond Hstate Hrun.
  assert (Hshape : forall now,
             snd (checkForResults env now st)
             = if isChecking st then []
               else match list_ env "public/results/" with
                    | Some {| items := Some its |} =>
                        ([ConsoleLog "Checking for new CSV results...";
                          ListCall "public/results/";
                          ConsoleLog ("Found "
                                      ++ JS.numberToString
                                           (Z.of_nat (length (csvFilesOf its)))
                                      ++ " CSV files")]
                         ++ fst (processFiles env now (firstn 5 (csvFilesOf its)))
                         ++ [OnResultsFound
                               (snd (processFiles env now (firstn 5 (csvFilesOf its))))])%list
                    | Some {| items := None |} =>
                        [ConsoleLog "Checking for new CSV results...";
                         ListCall "public/results/";
                         ConsoleLog "No results folder found"]
                    | None =>
                        [ConsoleLog "Checking for new CSV results...";
                         ListCall "public/results/";
                         ConsoleError "Error checking for results:"]
                    end).
  { intros now. unfold checkForResults, JS.slice0.
    destruct (isChecking st); [reflexivity|].
    destruct (list_ env "public/results/") as [[[its|]]|]; cbn [items];
      try reflexivity.
    destruct (csvFilesOf its) as [|f fs]; [reflexivity|].
    cbn [length Nat.eqb].
    destruct (processFiles env now (firstn 5 (f :: fs))); reflexivity. }
  rewrite (Hshape now1), (Hshape now2). clear Hshape.
  destruct (isChecking st); [repeat split|].
  destruct (list_ env "public/results/") as [[[its|]]|]; try (repeat split; fail).
  destruct (processFiles_two_times env now1 now2 (firstn 5 (csvFilesOf its)) Halike)
    as (He & Hf & Hr).
  rewrite He.
  repeat split.
  - rewrite !forgetHandles_app. cbn [forgetHandles List.map]. rewrite Hr. reflexivity.
  - rewrite !delivered_app.
    destruct (processFiles_spec env now1 (firstn 5 (csvFilesOf its))) as (_ & -> & _).
    cbn [delivered flat_map app List.map]. rewrite Hr. reflexivity.
  - rewrite !downloads_app. reflexivity.
  - intros Hsame.
    assert (Hfiles : forall files, processFiles env now2 files = processFiles env now1 files).
    { induction files as [|file rest IH]; [reflexivity|].
      cbn [processFiles]. rewrite IH. unfold processFile.
      destruct (key file) as [k|]; [|reflexivity].
      rewrite (Hsame k). reflexivity. }
    rewrite Hfiles. reflexivity.
Qed.

Import Examples.

Lemma discovery_repeatable_but_for_handles_witness :
  List.map (List.map withoutUrl)
    (delivered (snd (checkForResults signingStore 3600000
                       (fst (checkForResults signingStore 0 idle)))))
  = List.map (List.map withoutUrl)
      (delivered (snd (checkForResults signingStore 0 idle))).
Proof.
  apply (discovery_repeatable_but_for_handles signingStore 0 3600000 idle).
  intros k; split; discriminate.
Defined.

(** C3 as stated fails: the handle of an entry carries the time it was
    signed at, so two runs against the same store deliver entries whose
    [downloadUrl] fields differ. *)
Lemma handles_differ_between_runs :
  List.map (List.map downloadUrl)
    (delivered (snd (checkForResults signingStore 0 idle)))
  = [["https://bucket.example/public/results/bird-results-2024-01-02T03-04-05.csv?X-Amz-Date=0&X-Amz-Expires=3600"]]
  /\ List.map (List.map downloadUrl)
       (delivered (snd (checkForResults signingStore 3600000
                          (fst (checkForResults signingStore 0 idle)))))
     = [["https://bucket.example/public/results/bird-results-2024-01-02T03-04-05.csv?X-Amz-Date=3600000&X-Amz-Expires=3600"]]
  /\ delivered (snd (checkForResults signingStore 3600000
                       (fst (checkForResults signingStore 0 idle))))
     <> delivered (snd (checkForResults signingStore 0 idle)).
Proof.
  split; [reflexivity|]. split; [reflexivity|].
  intros H. apply (f_equal (List.map (List.map downloadUrl))) in H.
  vm_compute in H. discriminate H.
Qed.

End DiscoveryProperties.

Module EnhancedViewerFacts.
Import Storage EnhancedCSVViewer.

Lemma withUrl_path (env : Storage.t) (now : Z) (c : CSVFile) :
  path (fst (withUrl env now c)) = path c
  /\ pathLastModified (fst (withUrl env now c)) = pathLastModified c.
Proof. unfold withUrl. destruct (getUrl env now (path c)); split; reflexivity. Qed.

(** The files shown after a successful listing: the enhanced tables of
    the listing, each through [withUrl], sorted. *)
Lemma loadCSVFiles_listed (env : Storage.t) (now : Z) (st : State) (its : list CSVFile) :
  listAll env "public/results/" = Some its ->
  csvFiles (fst (loadCSVFiles env now st))
  = JS.sort byLastModifiedDesc
      (List.map (fun c => fst (withUrl env now c)) (filter isEnhancedCsv its))
  /\ error (fst (loadCSVFiles env now st)) = None
  /\ loading (fst (loadCSVFiles env now st)) = false.
Proof.
  intros H. unfold loadCSVFiles. rewrite H; simpl.
  rewrite map_map. repeat split.
Qed.

Lemma loadCSVFiles_pattern (env : Storage.t) (now : Z) (st : State) (its : list CSVFile) :
  listAll env "public/results/" = Some its ->
  Forall (fun c => JS.includes (path c) "enhanced_bird_results" = true
                   /\ JS.endsWith (path c) ".csv" = true)
         (csvFiles (fst (loadCSVFiles env now st))).
Proof.
  intros H. destruct (loadCSVFiles_listed env now st its H) as (-> & _).
  rewrite Forall_forall. intros c Hc.
  rewrite sort_In, in_map_iff in Hc. destruct Hc as (c0 & <- & Hc0).
  apply filter_In in Hc0. destruct Hc0 as [_ Hc0].
  destruct (withUrl_path env now c0) as [-> _].
  unfold isEnhancedCsv in Hc0. apply andb_prop in Hc0. exact Hc0.
Qed.

(** When both entries carry a time the comparator is the difference of
    the times; the insertion only ever compares entries of the list. *)
Lemma insert_timed_Descending (x : CSVFile) (l : list CSVFile) :
  pathLastModified x <> None ->
  Forall (fun c => pathLastModified c <> None) l ->
  Descending epochTime l ->
  Descending epochTime (JS.insert byLastModifiedDesc x l).
Proof.
  intros Hx Hl Hsorted. unfold Descending in *.
  induction Hsorted as [|y l Hrest IH Hall]; simpl.
  - repeat constructor.
  - inversion Hl as [|? ? Hy Hl']; subst.
    unfold JS.sortCompare, byLastModifiedDesc.
    assert (Ex : exists tx, pathLastModified x = Some tx)
      by (destruct (pathLastModified x); [eauto | contradiction]).
    assert (Ey : exists ty, pathLastModified y = Some ty)
      by (destruct (pathLastModified y); [eauto | contradiction]).
    destruct Ex as [tx Ex], Ey as [ty Ey]. rewrite Ex, Ey; simpl.
    assert (Hex : epochTime x = tx) by (unfold epochTime; rewrite Ex; reflexivity).
    assert (Hey : epochTime y = ty) by (unfold epochTime; rewrite Ey; reflexivity).
    destruct (Z.leb_spec (ty - tx) 0) as [Hle|Hgt].
    + constructor; [constructor; assumption|].
      constructor; [lia|].
      rewrite Forall_forall in *. intros z Hz. specialize (Hall z Hz). lia.
    + constructor; [apply IH; assumption|].
      rewrite Forall_forall in *. intros z Hz.
      apply (Permutation_in _ (Permutation_sym (insert_Permutation _ x l))) in Hz.
      destruct Hz as [<-|Hz]; [lia | apply Hall, Hz].
Qed.

Lemma sort_timed_Descending (l : list CSVFile) :
  Forall (fun c => pathLastModified c <> None) l ->
  Descending epochTime (JS.sort byLastModifiedDesc l).
Proof.
  induction 1 as [|x l Hx Hl IH]; simpl.
  - constructor.
  - apply insert_timed_Descending; [exact Hx| |exact IH].
    rewrite Forall_forall in *. intros c Hc. apply Hl.
    apply sort_In in Hc. exact Hc.
Qed.

Lemma loadCSVFiles_Descending (env : Storage.t) (now : Z) (st : State) (its : list CSVFile) :
  listAll env "public/results/" = Some its ->
  Forall (fun c => pathLastModified c <> None) its ->
  Descending epochTime (csvFiles (fst (loadCSVFiles env now st))).
Proof.
  intros H Htimed. destruct (loadCSVFiles_listed env now st its H) as (-> & _).
  apply sort_timed_Descending.
  rewrite Forall_forall in *. intros c Hc.
  rewrite in_map_iff in Hc. destruct Hc as (c0 & <- & Hc0).
  apply filter_In in Hc0. destruct Hc0 as [Hc0 _].
  destruct (withUrl_path env now c0) as [_ ->]. apply Htimed, Hc0.
Qed.

(** Two loads against the same state of the store show the same files. *)
Lemma loadCSVFiles_idempotent (env : Storage.t) (now : Z) (st : State) :
  loadCSVFiles env now (fst (loadCSVFiles env now st)) = loadCSVFiles env now st.
Proof.
  unfold loadCSVFiles. destruct (listAll env "public/results/"); reflexivity.
Qed.

End EnhancedViewerFacts.

Module DiscoveryClaims.
Import Storage ResultsChecker ResultsCheckerFacts DiscoveryProperties.
Import EnhancedViewerFacts Examples.

(** *** Empty namespace *)

Lemma checker_empty_namespace (env : Storage.t) (now : Z) (st : State)
      (its : list ListItem) :
  isChecking st = false ->
  list_ env "public/results/" = Some {| items := Some its |} ->
  filter isCsv its = [] ->
  delivered (snd (checkForResults env now st)) = [[]]
  /\ errors (snd (checkForResults env now st)) = [].
Proof.
  intros Hidle Hlist Hnone.
  destruct (checkForResults_listed env now st its Hidle Hlist)
    as (pre & _ & Hv & He & ->).
  unfold csvFilesOf. rewrite Hnone. simpl.
  rewrite delivered_app, errors_app, Hv, He. split; reflexivity.
Qed.

Lemma viewer_empty_namespace (env : Storage.t) (vnow : Z)
      (vst : EnhancedCSVViewer.State)
      (paths : list CSVFile) :
  listAll env "public/results/" = Some paths ->
  filter EnhancedCSVViewer.isEnhancedCsv paths = [] ->
  EnhancedCSVViewer.loadCSVFiles env vnow vst
  = ({| EnhancedCSVViewer.csvFiles := [];
        EnhancedCSVViewer.loading := false;
        EnhancedCSVViewer.error := None |}, []).
Proof.
  intros Hlist Hnone. unfold EnhancedCSVViewer.loadCSVFiles.
  rewrite Hlist, Hnone. reflexivity.
Qed.

(** C7. When the listing of the results namespace holds no matching
    table, the client delivers the empty sequence to its consumer and
    logs no error, and the viewer of enhanced tables ends with an empty
    list, no error set and nothing on the error console: it shows its
    empty state. *)
Theorem empty_namespace_no_error
        (env : Storage.t) (now vnow : Z) (st : State) (vst : EnhancedCSVViewer.State)
        (its : list ListItem) (paths : list CSVFile) :
  isChecking st = false ->
  list_ env "public/results/" = Some {| items := Some its |} ->
  filter isCsv its = [] ->
  listAll env "public/results/" = Some paths ->
  filter EnhancedCSVViewer.isEnhancedCsv paths = [] ->
  (delivered (snd (checkForResults env now st)) = [[]]
   /\ errors (snd (checkForResults env now st)) = [])
  /\ EnhancedCSVViewer.csvFiles (fst (EnhancedCSVViewer.loadCSVFiles env vnow vst)) = []
  /\ EnhancedCSVViewer.error (fst (EnhancedCSVViewer.loadCSVFiles env vnow vst)) = None
  /\ snd (EnhancedCSVViewer.loadCSVFiles env vnow vst) = []
  /\ EnhancedCSVViewer.render (fst (EnhancedCSVViewer.loadCSVFiles env vnow vst))
     = EnhancedCSVViewer.EmptyState.
Proof.
  intros Hidle Hlist Hnone Hpaths Hnone'.
  split; [apply (checker_empty_namespace env now st its); assumption|].
  rewrite (viewer_empty_namespace env vnow vst paths Hpaths Hnone').
  repeat split.
Qed.

Lemma empty_namespace_no_error_witness :
  (delivered (snd (checkForResults emptyStore 0 idle)) = [[]]
   /\ errors (snd (checkForResults emptyStore 0 idle)) = [])
  /\ EnhancedCSVViewer.csvFiles
       (fst (EnhancedCSVViewer.loadCSVFiles emptyStore 0 viewerStart)) = []
  /\ EnhancedCSVViewer.error
       (fst (EnhancedCSVViewer.loadCSVFiles emptyStore 0 viewerStart)) = None
  /\ snd (EnhancedCSVViewer.loadCSVFiles emptyStore 0 viewerStart) = []
  /\ EnhancedCSVViewer.render
       (fst (EnhancedCSVViewer.loadCSVFiles emptyStore 0 viewerStart))
     = EnhancedCSVViewer.EmptyState.
Proof.
  apply (empty_namespace_no_error emptyStore 0 0 idle viewerStart
           [readmeItem] [readmeFile]);
    reflexivity.
Defined.

(** *** Pattern and order *)

(** The keys of a delivered list are keys of the first five CSV files of
    the listing, in their order. *)
Lemma delivered_keys_listed (env : Storage.t) (now : Z) (st : State)
      (its : list ListItem) :
  list_ env "public/results/" = Some {| items := Some its |} ->
  forall rs, In rs (delivered (snd (checkForResults env now st))) ->
  Subsequence (List.map csvKey rs) (keysOf (firstn 5 (csvFilesOf its))).
Proof.
  intros Hlist rs Hrs.
  destruct (isChecking st) eqn:Hbusy.
  - destruct (checkForResults_not_listed env now st (or_introl Hbusy)) as [_ Hnone].
    rewrite Hnone in Hrs. contradiction.
  - destruct (checkForResults_listed env now st its Hbusy Hlist)
      as (pre & _ & Hv & _ & Heffs).
    rewrite Heffs in Hrs.
    destruct (processFiles_spec env now (firstn 5 (csvFilesOf its))) as (_ & Pv & Pr).
    rewrite !delivered_app, Hv, Pv in Hrs. simpl in Hrs.
    destruct Hrs as [<-|[]]. exact Pr.
Qed.

(** C2, as the code has it.  The client keeps of a listing the entries
    whose key ends with [.csv], in descending order of last-modified time,
    an entry without time counting as the epoch, and the keys of what it
    delivers end with [.csv]; the viewer keeps the entries whose path
    contains [enhanced_bird_results] and ends with [.csv], in descending
    order of last-modified time when every listed entry carries one. *)
Theorem discovery_pattern_and_order
        (env : Storage.t) (now vnow : Z) (st : State) (vst : EnhancedCSVViewer.State)
        (its : list ListItem) (paths : list CSVFile) :
  list_ env "public/results/" = Some {| items := Some its |} ->
  listAll env "public/results/" = Some paths ->
  let found := EnhancedCSVViewer.csvFiles (fst (EnhancedCSVViewer.loadCSVFiles env vnow vst)) in
  (Forall (fun f => exists k, key f = Some k /\ JS.endsWith k ".csv" = true)
          (csvFilesOf its)
   /\ Descending timeOf (csvFilesOf its)
   /\ (forall rs r, In rs (delivered (snd (checkForResults env now st))) ->
         In r rs -> JS.endsWith (csvKey r) ".csv" = true)
   /\ (forall rs, In rs (delivered (snd (checkForResults env now st))) ->
         Subsequence (List.map csvKey rs) (keysOf (csvFilesOf its))))
  /\ Forall (fun c => JS.includes (path c) "enhanced_bird_results" = true
                      /\ JS.endsWith (path c) ".csv" = true) found
  /\ (Forall (fun c => pathLastModified c <> None) paths ->
      Descending epochTime found).
Proof.
  intros Hlist Hpaths found.
  assert (Hpattern : Forall (fun f => exists k, key f = Some k
                                       /\ JS.endsWith k ".csv" = true)
                            (csvFilesOf its)).
  { rewrite Forall_forall. intros f Hf.
    apply csvFilesOf_In in Hf. destruct Hf as [_ Hf].
    destruct (isCsv_key f Hf) as (k & Hk & Hend & _). eauto. }
  assert (Hsub : forall rs, In rs (delivered (snd (checkForResults env now st))) ->
                   Subsequence (List.map csvKey rs) (keysOf (csvFilesOf its))).
  { intros rs Hrs.
    eapply Subsequence_trans;
      [exact (delivered_keys_listed env now st its Hlist rs Hrs)|].
    apply keysOf_Subsequence, firstn_Subsequence. }
  repeat split.
  - exact Hpattern.
  - apply csvFilesOf_Descending.
  - intros rs r Hrs Hr.
    specialize (Hsub rs Hrs).
    assert (Hin : In (csvKey r) (keysOf (csvFilesOf its))).
    { eapply Subsequence_In; [exact Hsub|]. apply in_map, Hr. }
    apply keysOf_In in Hin. destruct Hin as (f & Hf & Hk).
    rewrite Forall_forall in Hpattern.
    destruct (Hpattern f Hf) as (k & Hk' & Hend). congruence.
  - exact Hsub.
  - apply (loadCSVFiles_pattern env vnow vst paths Hpaths).
  - apply (loadCSVFiles_Descending env vnow vst paths Hpaths).
Qed.

Lemma discovery_pattern_and_order_witness :
  list_ mixedStore "public/results/" = Some {| items := Some mixedItems |}
  /\ listAll mixedStore "public/results/" = Some [olderEnhanced; readmeFile; newerEnhanced]
  /\ Descending timeOf (csvFilesOf mixedItems)
  /\ Descending epochTime
       (EnhancedCSVViewer.csvFiles
          (fst (EnhancedCSVViewer.loadCSVFiles mixedStore 0 viewerStart))).
Proof.
  split; [reflexivity|]. split; [reflexivity|].
  destruct (discovery_pattern_and_order mixedStore 0 0 idle viewerStart
              mixedItems [olderEnhanced; readmeFile; newerEnhanced]
              eq_refl eq_refl) as ((_ & Hprimary & _) & _ & Henhanced).
  split; [exact Hprimary|].
  apply Henhanced.
  repeat constructor; discriminate.
Defined.

(** C2 as stated fails on the viewer: an entry listed without
    last-modified time is not sorted as the epoch.  Listed before an entry
    modified at time 5, it stays before it. *)
Lemma untimed_entry_not_sorted_as_epoch :
  listAll untimedStore "public/results/" = Some [untimed; timed]
  /\ EnhancedCSVViewer.csvFiles
       (fst (EnhancedCSVViewer.loadCSVFiles untimedStore 0 viewerStart))
     = [untimed; timed]
  /\ epochTime untimed = 0 /\ epochTime timed = 5
  /\ ~ Descending epochTime
        (EnhancedCSVViewer.csvFiles
           (fst (EnhancedCSVViewer.loadCSVFiles untimedStore 0 viewerStart))).
Proof.
  repeat split.
  intros H. change (Descending epochTime [untimed; timed]) in H.
  inversion H as [|? ? _ Hall]; subst.
  inversion Hall as [|? ? Hle _]; subst.
  vm_compute in Hle. apply Hle. reflexivity.
Qed.

(** *** Entries for published tables *)

Lemma processFiles_In (env : Storage.t) (now : Z) (files : list ListItem)
      (file : ListItem) (r : ProcessingResult) :
  In file files ->
  snd (processFile env now file) = Some r ->
  In r (snd (processFiles env now files)).
Proof.
  induction files as [|f rest IH]; intros Hin Hr; [contradiction|].
  rewrite processFiles_cons; cbn [snd].
  destruct Hin as [->|Hin].
  - rewrite Hr. left; reflexivity.
  - destruct (snd (processFile env now f)); [right|]; apply IH; assumption.
Qed.

(** C1, as the code has it.  A table among the five most recent CSV
    files whose download and retrieval handle succeed and whose text has
    at least two non-blank lines (the header and a data row) has its
    entry in the list delivered to the consumer, with the number of rows
    and the sum of the counts read from it. *)
Theorem table_with_rows_reported
        (env : Storage.t) (now : Z) (st : State) (its : list ListItem)
        (file : ListItem) (k csvText url : string) :
  isChecking st = false ->
  list_ env "public/results/" = Some {| items := Some its |} ->
  In file (firstn 5 (csvFilesOf its)) ->
  key file = Some k ->
  downloadData env k = Some csvText ->
  (2 <= length (linesOf csvText))%nat ->
  getUrl env now k = Some url ->
  exists rs,
    delivered (snd (checkForResults env now st)) = [rs]
    /\ In {| filename := JS.numberToString
                           (snd (countRows (skipn 1 (linesOf csvText))))
                         ++ " images processed";
             birdCount := fst (countRows (skipn 1 (linesOf csvText)));
             extractionFolder := k;
             csvKey := k;
             downloadUrl := url;
             timestamp := timestampOf k |} rs.
Proof.
  intros Hidle Hlist Hin Hk Hdata Hlines Hurl.
  destruct (checkForResults_listed env now st its Hidle Hlist)
    as (pre & _ & Hv & _ & ->).
  destruct (processFiles_spec env now (firstn 5 (csvFilesOf its))) as (_ & Pv & _).
  exists (snd (processFiles env now (firstn 5 (csvFilesOf its)))).
  rewrite !delivered_app, Hv, Pv. split; [reflexivity|].
  apply (processFiles_In env now _ file); [exact Hin|].
  assert (Hcsv : isCsv file = true).
  { apply (Subsequence_In _ _ (firstn_Subsequence 5 (csvFilesOf its))) in Hin.
    apply csvFilesOf_In in Hin. apply Hin. }
  destruct (isCsv_key file Hcsv) as (k' & Hk' & _ & Htruthy).
  assert (k' = k) by congruence; subst k'.
  unfold processFile. rewrite Hk, Htruthy, Hdata; cbn [negb].
  destruct (Nat.ltb_spec (length (linesOf csvText)) 2) as [Hlt|_]; [lia|].
  destruct (countRows (skipn 1 (linesOf csvText))) as [totalBirds fileCount].
  rewrite Hurl. reflexivity.
Qed.

Lemma table_with_rows_reported_witness :
  exists rs,
    delivered (snd (checkForResults twoRowStore 0 idle)) = [rs]
    /\ In {| filename := "2 images processed";
             birdCount := 7;
             extractionFolder := tableKey;
             csvKey := tableKey;
             downloadUrl := "https://bucket.example/" ++ tableKey;
             timestamp := "2024:01:02T03:04:05" |} rs.
Proof.
  apply (table_with_rows_reported twoRowStore 0 idle [tableItem] tableItem tableKey
           ("itemName,count" ++ lineFeed ++ "a.jpg,2" ++ lineFeed
            ++ "b.png,5" ++ lineFeed)
           ("https://bucket.example/" ++ tableKey)).
  - reflexivity.
  - reflexivity.
  - left; reflexivity.
  - reflexivity.
  - reflexivity.
  - vm_compute. lia.
  - reflexivity.
Defined.

(** C1 as stated fails: a published table with the header row only is
    listed, downloaded, and skipped; the list delivered is empty, as it
    is when nothing was ever processed. *)
Lemma header_only_table_not_reported :
  In tableItem (listing headerOnlyStore)
  /\ downloadData headerOnlyStore tableKey = Some ("itemName,count" ++ lineFeed)
  /\ delivered (snd (checkForResults headerOnlyStore 0 idle)) = [[]]
  /\ ~ (exists rs r, In rs (delivered (snd (checkForResults headerOnlyStore 0 idle)))
                     /\ In r rs /\ csvKey r = tableKey).
Proof.
  split; [left; reflexivity|].
  split; [reflexivity|].
  split; [reflexivity|].
  intros (rs & r & Hrs & Hr & _).
  change (In rs [[]]) in Hrs.
  destruct Hrs as [<-|[]]. destruct Hr.
Qed.

End DiscoveryClaims.

(** ** Strings *)

Section StringFacts.

Lemma prefix_split (p k : string) :
  String.prefix p k = true -> exists r, k = p ++ r.
Proof.
  revert k; induction p as [|a p IH]; intros k H.
  - exists k; reflexivity.
  - destruct k as [|b k]; simpl in H; [discriminate|].
    destruct (ascii_dec a b) as [->|]; [|discriminate].
    destruct (IH k H) as [r ->]. exists r; reflexivity.
Qed.

Lemma prefix_append (p r : string) : String.prefix p (p ++ r) = true.
Proof.
  induction p as [|a p IH]; simpl; [destruct r; reflexivity|].
  destruct (ascii_dec a a); [exact IH | congruence].
Qed.

Lemma startsWith_iff (k p : string) :
  JS.startsWith k p = true <-> exists r, k = p ++ r.
Proof.
  unfold JS.startsWith. split.
  - apply prefix_split.
  - intros [r ->]. apply prefix_append.
Qed.

End StringFacts.

(** ** Access policy *)

Module AccessPolicy.
Import Backend.

(** What the table grants on an object, read off its six entries. *)
Lemma allowed_unfold (who : Principal) (a : Action) (k : string) :
  allowed who a k
  = Principal_eqb guest who
    && ((JS.startsWith k "public/uploads/" || JS.startsWith k "uploads/")
        || (Action_eqb a read
            && (JS.startsWith k "public/results/"
                || JS.startsWith k "public/processed/"
                || JS.startsWith k "results/"
                || JS.startsWith k "processed/"))).
Proof.
  unfold allowed, access, covers. cbn -[JS.startsWith].
  destruct who, a; cbn -[JS.startsWith];
    repeat match goal with
           | |- context [JS.startsWith k ?p] =>
               destruct (JS.startsWith k p); cbn -[JS.startsWith]
           end;
    reflexivity.
Qed.

(** No key lies under both an uploads path and a results or processed
    path. *)
Lemma underResults_not_underUploads (k : string) :
  underResults k ->
  JS.startsWith k "uploads/" = false /\ JS.startsWith k "public/uploads/" = false.
Proof.
  intros [H|[H|[H|H]]]; apply startsWith_iff in H; destruct H as [r ->];
    split; reflexivity.
Qed.

(** Writes and deletes are granted to the guest only, and only under an
    uploads path. *)
Lemma mutation_only_under_uploads (who : Principal) (a : Action) (k : string) :
  allowed who a k = true -> a <> read -> who = guest /\ underUploads k.
Proof.
  rewrite allowed_unfold. intros H Ha.
  apply andb_prop in H. destruct H as [Hwho H].
  split; [destruct who; [reflexivity | discriminate]|].
  apply orb_prop in H. destruct H as [H|H].
  - apply orb_prop in H. unfold underUploads. tauto.
  - apply andb_prop in H. destruct H as [H _].
    destruct a; try discriminate. congruence.
Qed.

(** The same, on the table itself: its only entries with [write] or
    [delete] are the two uploads patterns. *)
Lemma granted_mutation_patterns (who : Principal) (pattern : string) (a : Action) :
  grantedOn who pattern a = true -> a <> read ->
  who = guest /\ (pattern = "public/uploads/*" \/ pattern = "uploads/*").
Proof.
  unfold grantedOn, access. cbn -[String.eqb].
  intros H Ha.
  repeat match type of H with
         | (_ || _) = true => apply orb_prop in H; destruct H as [H|H]
         end;
    try discriminate;
    apply andb_prop in H; destruct H as [Hp H];
    apply String.eqb_eq in Hp; subst pattern;
    destruct who, a; try discriminate; try congruence; auto.
Qed.

(** C10. On every object under a results or processed path, the guest
    may read, and no client may write or delete; whoever may write or
    delete an object is the guest, on an object under an uploads path. *)
Theorem results_read_only_for_clients (who : Principal) (k : string) :
  underResults k ->
  allowed guest read k = true
  /\ allowed who write k = false
  /\ allowed who delete k = false
  /\ (forall who' a k', allowed who' a k' = true -> a <> read ->
        who' = guest /\ underUploads k')
  /\ (forall who' pattern a, grantedOn who' pattern a = true -> a <> read ->
        who' = guest /\ (pattern = "public/uploads/*" \/ pattern = "uploads/*")).
Proof.
  intros Hk.
  destruct (underResults_not_underUploads k Hk) as [Hu Hpu].
  rewrite !allowed_unfold, Hu, Hpu.
  repeat split.
  - destruct Hk as [H|[H|[H|H]]]; rewrite H; cbn;
      repeat rewrite orb_true_r; reflexivity.
  - cbn. apply andb_false_r.
  - cbn. apply andb_false_r.
  - eapply mutation_only_under_uploads; eassumption.
  - eapply mutation_only_under_uploads; eassumption.
  - eapply granted_mutation_patterns; eassumption.
  - eapply granted_mutation_patterns; eassumption.
Qed.

Lemma results_read_only_for_clients_witness :
  underResults "public/results/bird-results-2024.csv"
  /\ allowed guest read "public/results/bird-results-2024.csv" = true
  /\ allowed guest write "public/results/bird-results-2024.csv" = false
  /\ allowed guest delete "public/results/bird-results-2024.csv" = false.
Proof.
  assert (H : underResults "public/results/bird-results-2024.csv")
    by (right; right; left; reflexivity).
  split; [exact H|].
  destruct (results_read_only_for_clients guest _ H) as (Hr & Hw & Hd & _).
  repeat split; assumption.
Defined.

End AccessPolicy.

(** ** What starts the processor *)

Module TriggerProperties.
Import Backend S3FileUploader UploadExamples.

Lemma triggersProcessor_unfold (k : string) :
  triggersProcessor k
  = (JS.startsWith k "uploads/" || JS.startsWith k "public/uploads/")
    && (JS.endsWith k ".zip" || JS.endsWith k ".jpg" || JS.endsWith k ".jpeg"
        || JS.endsWith k ".png" || JS.endsWith k ".gif" || JS.endsWith k ".bmp").
Proof.
  unfold triggersProcessor, eventNotifications, imageExtensions, selects.
  cbn -[JS.startsWith JS.endsWith].
  destruct (JS.startsWith k "uploads/"), (JS.startsWith k "public/uploads/");
    cbn -[JS.endsWith];
    repeat match goal with
           | |- context [JS.endsWith k ?e] => destruct (JS.endsWith k e); cbn -[JS.endsWith]
           end;
    reflexivity.
Qed.

(** C4, as the code has it.  The creation of an object starts the
    processor exactly when its key starts with [uploads/] or
    [public/uploads/] and ends, code unit for code unit, with [.zip] or one
    of the five image extensions in lower case; the uploader selects the
    files whose media type is a ZIP type or starts with [image/], whatever
    their names, and shows an alert exactly when it leaves a file out. *)
Theorem processor_started_by_exact_suffix :
  (forall k,
      triggersProcessor k = true <->
      (JS.startsWith k "uploads/" = true \/ JS.startsWith k "public/uploads/" = true)
      /\ exists ext, In ext (".zip" :: imageExtensions) /\ JS.endsWith k ext = true)
  /\ (forall files f,
         In f (fst (handleFiles files)) <-> In f files /\ isValidFile f = true)
  /\ (forall files,
         snd (handleFiles files) = None <-> Forall (fun f => isValidFile f = true) files).
Proof.
  split; [|split].
  - intros k. rewrite triggersProcessor_unfold. unfold imageExtensions.
    rewrite andb_true_iff, orb_true_iff, !orb_true_iff. split.
    + intros [Hp Hs]. split; [exact Hp|].
      destruct Hs as [[[[[H|H]|H]|H]|H]|H];
        eexists; (split; [|exact H]); simpl; tauto.
    + intros [Hp (ext & Hin & H)]. split; [exact Hp|].
      simpl in Hin.
      destruct Hin as [<-|[<-|[<-|[<-|[<-|[<-|[]]]]]]]; tauto.
  - intros files f. unfold handleFiles; simpl. apply filter_In.
  - intros files. unfold handleFiles; cbn [snd].
    assert (Hlen : (length (filter isValidFile files) = length files)
                   <-> Forall (fun f => isValidFile f = true) files).
    { induction files as [|f files IH]; simpl.
      - split; [constructor | reflexivity].
      - destruct (isValidFile f) eqn:Hf; simpl.
        + split.
          * intros H. constructor; [exact Hf | apply IH; lia].
          * intros H. inversion H; subst. f_equal. apply IH. assumption.
        + split.
          * intros H. pose proof (filter_length_le isValidFile files). lia.
          * intros H. inversion H; subst. congruence. }
    destruct (Nat.eqb_spec (length (filter isValidFile files)) (length files))
      as [Heq|Hne]; cbn [negb].
    + split; [intros _; apply Hlen, Heq | reflexivity].
    + split; [discriminate | intros H; apply Hlen in H; contradiction].
Qed.

(** C4 as stated fails.  A photograph named [IMG_0001.JPG] is selected by
    the uploader and its name ends, case set aside, with [jpg]; yet under
    the key it is stored at, with or without the [public/] prefix, no
    notification starts the processor.  And a file that is left out is not
    skipped silently: an alert reports it. *)
Lemma uppercase_extension_not_processed :
  handleFiles [cameraPhoto] = ([cameraPhoto], None)
  /\ acceptedBySpec (name cameraPhoto) = true
  /\ uploadKey leapDayNoon cameraPhoto = "uploads/2024-02-29T12-30-45-123Z-IMG_0001.JPG"
  /\ triggersProcessor (uploadKey leapDayNoon cameraPhoto) = false
  /\ triggersProcessor ("public/" ++ uploadKey leapDayNoon cameraPhoto) = false
  /\ handleFiles [notes]
     = ([], Some "1 files were skipped. Only ZIP and image files are supported.").
Proof. repeat split; vm_compute; reflexivity. Qed.

End TriggerProperties.

(** ** Start of the enrichment runner *)

Module LifecycleProperties.
Import Lifecycle UploadExamples.

(** The steps before the launch never end the shell and start no
    program. *)
Lemma fetch_goes_on (m : Machine) (sh : Shell) :
  exists sh', fetch m sh = Next sh' /\ started sh' = started sh.
Proof.
  unfold fetch, andThen, command, echo, writeFile, awsS3Cp; simpl.
  destruct (copySucceeds m); simpl; eexists; split; reflexivity.
Qed.

(** The start-up script: a first line on the log, the runner in a child
    shell, a last line on the log, whose status is the script's. *)
Lemma onStart_unfold (m : Machine) (sh : Shell) :
  runShell (onStart m) sh
  = let child :=
      snd (runShell (runner m)
             {| files := files sh;
                log := (log sh ++ ["=== PRODUCTION LIFECYCLE STARTED ==="])%list;
                started := started sh; status := 0 |}) in
    (0, {| files := files child;
           log := (log child ++ ["=== PRODUCTION LIFECYCLE COMPLETED ==="])%list;
           started := started child;
           status := 0 |}).
Proof.
  unfold onStart, andThen, sudoBash, echo.
  unfold runShell at 1. cbv beta iota.
  destruct (runShell (runner m) _) as [code child]. reflexivity.
Qed.

(** When the processing script is absent after the copy step, the shell
    of the here-document writes the error line to the log, exits with
    status 1, and has started no program; the log of the whole start-up
    script carries the error line and no program was started by it
    either. *)
Theorem fetch_failure_fails_fast (m : Machine) (sh sh' : Shell) :
  fetch m sh = Next sh' ->
  hasFile script sh' = false ->
  runShell (runner m) sh
  = (1, {| files := files sh';
           log := (log sh' ++ ["ERROR: Failed to download script from S3"])%list;
           started := started sh;
           status := 0 |})
  /\ In "ERROR: Failed to download script from S3"
        (log (snd (runShell (onStart m) sh)))
  /\ started (snd (runShell (onStart m) sh)) = started sh.
Proof.
  intros Hfetch Habsent.
  destruct (fetch_goes_on m sh) as (sh1 & Hsh1 & Hstarted).
  assert (sh1 = sh') by congruence; subst sh1.
  assert (Hrunner : runShell (runner m) sh
                    = (1, {| files := files sh';
                             log := (log sh' ++ ["ERROR: Failed to download script from S3"])%list;
                             started := started sh;
                             status := 0 |})).
  { unfold runShell, runner. unfold andThen at 1. rewrite Hfetch.
    unfold launch, andThen, ifNotFile. rewrite Habsent.
    unfold echo, exit; simpl. rewrite Hstarted. reflexivity. }
  split; [exact Hrunner|].
  rewrite onStart_unfold.
  (* the child shell is the runner, started after the first echo *)
  set (sh0 := {| files := files sh;
                 log := (log sh ++ ["=== PRODUCTION LIFECYCLE STARTED ==="])%list;
                 started := started sh; status := 0 |}).
  destruct (fetch_goes_on m sh0) as (sh1 & Hfetch1 & Hstarted1).
  assert (Habsent1 : hasFile script sh1 = false).
  { revert Hfetch1 Hfetch Habsent.
    unfold fetch, andThen, command, echo, writeFile, awsS3Cp, hasFile; simpl.
    destruct (copySucceeds m); simpl; intros [= <-] [= <-]; simpl; auto. }
  assert (Hchild : runShell (runner m) sh0
                   = (1, {| files := files sh1;
                            log := (log sh1 ++ ["ERROR: Failed to download script from S3"])%list;
                            started := started sh0;
                            status := 0 |})).
  { unfold runShell, runner. unfold andThen at 1. rewrite Hfetch1.
    unfold launch, andThen, ifNotFile. rewrite Habsent1.
    unfold echo, exit; simpl. rewrite Hstarted1. reflexivity. }
  rewrite Hchild. simpl. split; [|reflexivity].
  apply in_or_app; left. apply in_or_app; right. left; reflexivity.
Qed.

Lemma fetch_failure_fails_fast_witness :
  fst (runShell (runner offline) fresh) = 1
  /\ In "ERROR: Failed to download script from S3"
        (log (snd (runShell (runner offline) fresh)))
  /\ started (snd (runShell (runner offline) fresh)) = [].
Proof.
  destruct (fetch_failure_fails_fast offline fresh afterFailedCopy eq_refl eq_refl)
    as (-> & _).
  cbn [fst snd log started].
  split; [reflexivity|]. split; [|reflexivity].
  apply in_or_app; right; left; reflexivity.
Defined.


(** The start-up script itself does not take over the status of the
    runner's shell: it goes on to its last [echo], whose status is its
    own. *)
Remark onStart_status (m : Machine) (sh : Shell) :
  fst (runShell (onStart m) sh) = 0
  /\ In "=== PRODUCTION LIFECYCLE COMPLETED ===" (log (snd (runShell (onStart m) sh))).
Proof.
  rewrite onStart_unfold. cbn [fst snd log].
  split; [reflexivity|]. apply in_or_app; right; left; reflexivity.
Qed.

End LifecycleProperties.

(** ** Numbers in decimal *)

Module DecimalFacts.

Ltac each_digit d Hd :=
  assert (d = 0 \/ d = 1 \/ d = 2 \/ d = 3 \/ d = 4 \/ d = 5 \/ d = 6 \/ d = 7
          \/ d = 8 \/ d = 9) as Hcases by lia;
  clear Hd;
  destruct Hcases as [->|[->|[->|[->|[->|[->|[->|[->|[->| ->]]]]]]]]].

Lemma digitVal_digitChar (d : Z) : 0 <= d <= 9 -> JS.digitVal 10 (JS.digitChar d) = Some d.
Proof. intros Hd. each_digit d Hd; reflexivity. Qed.

Lemma digit_is_ink (c : ascii) : isDigit c -> JS.isWhiteSpace c = false.
Proof. intros (d & Hd & ->). each_digit d Hd; reflexivity. Qed.

Lemma digit_not_comma (c : ascii) : isDigit c -> Ascii.eqb c "," = false.
Proof. intros (d & Hd & ->). each_digit d Hd; reflexivity. Qed.

Lemma digit_not_line_feed (c : ascii) : isDigit c -> Ascii.eqb c "010" = false.
Proof. intros (d & Hd & ->). each_digit d Hd; reflexivity. Qed.

Lemma digits_all (fuel : nat) (n : Z) : Forall isDigit (JS.digits fuel n).
Proof.
  revert n; induction fuel as [|fuel IH]; intros n; simpl; [constructor|].
  apply Forall_app. split.
  - destruct (n <? 10); [constructor | apply IH].
  - constructor; [|constructor].
    exists (n mod 10). split; [|reflexivity].
    pose proof (Z.mod_pos_bound n 10). lia.
Qed.

Lemma digits_not_nil (fuel : nat) (n : Z) : JS.digits (S fuel) n <> [].
Proof. simpl. intros H. apply app_eq_nil in H. destruct H; discriminate. Qed.

(** Reading a run of digits, then the rest. *)
Lemma parseDigits_app (ds : list ascii) (rest : string) (acc : option Z) :
  Forall isDigit ds ->
  JS.parseDigits 10 (string_of_list_ascii ds ++ rest) acc
  = JS.parseDigits 10 rest (JS.parseDigits 10 (string_of_list_ascii ds) acc).
Proof.
  intros H; revert acc.
  induction H as [|c ds (d & Hd & ->) _ IH]; intros acc;
    cbn [string_of_list_ascii append JS.parseDigits].
  - reflexivity.
  - rewrite (digitVal_digitChar d Hd). apply IH.
Qed.

Lemma string_of_list_ascii_app (l1 l2 : list ascii) :
  string_of_list_ascii (l1 ++ l2)
  = string_of_list_ascii l1 ++ string_of_list_ascii l2.
Proof. induction l1 as [|c l1 IH]; simpl; [reflexivity | rewrite IH; reflexivity]. Qed.

(** With fuel enough for its binary length, the digits printed for [n]
    read back as [n]. *)
Lemma parseDigits_digits (fuel : nat) (n : Z) :
  0 <= n < 2 ^ (Z.of_nat fuel + 1) ->
  JS.parseDigits 10 (string_of_list_ascii (JS.digits (S fuel) n)) None = Some n.
Proof.
  revert n; induction fuel as [|fuel IH]; intros n Hn.
  - change (2 ^ (Z.of_nat 0 + 1)) with 2 in Hn.
    assert (n = 0 \/ n = 1) as [->| ->] by lia; reflexivity.
  - change (JS.digits (S (S fuel)) n)
      with ((if n <? 10 then [] else JS.digits (S fuel) (n / 10))
            ++ [JS.digitChar (n mod 10)])%list.
    assert (Hd : 0 <= n mod 10 <= 9) by (pose proof (Z.mod_pos_bound n 10); lia).
    destruct (Z.ltb_spec n 10) as [Hsmall|Hbig].
    + cbn [app string_of_list_ascii JS.parseDigits].
      rewrite (digitVal_digitChar _ Hd). f_equal.
      rewrite Z.mod_small; lia.
    + rewrite string_of_list_ascii_app, parseDigits_app by apply digits_all.
      rewrite IH.
      * cbn [string_of_list_ascii JS.parseDigits].
        rewrite (digitVal_digitChar _ Hd). f_equal.
        pose proof (Z.div_mod n 10). lia.
      * replace (Z.of_nat (S fuel) + 1) with (Z.succ (Z.of_nat fuel + 1)) in Hn by lia.
        rewrite Z.pow_succ_r in Hn by lia.
        split; [apply Z.div_pos; lia|].
        apply Z.div_lt_upper_bound; lia.
Qed.

Lemma digitsOf_all (n : Z) : Forall isDigit (JS.digitsOf n).
Proof. apply digits_all. Qed.

Lemma digitsOf_not_nil (n : Z) : JS.digitsOf n <> [].
Proof. apply digits_not_nil. Qed.

Lemma parseDigits_digitsOf (n : Z) :
  0 <= n ->
  JS.parseDigits 10 (string_of_list_ascii (JS.digitsOf n)) None = Some n.
Proof.
  intros Hn. apply parseDigits_digits.
  split; [exact Hn|].
  destruct (Z.eq_dec n 0) as [->|Hne]; [reflexivity|].
  rewrite Z2Nat.id by apply Z.log2_nonneg.
  apply Z.log2_spec. lia.
Qed.

(** On a non-empty run of decimal digits, [parseInt] finds no white
    space, no sign and no hexadecimal prefix: it reads the digits. *)
Lemma parseInt_digits (ds : list ascii) :
  ds <> [] -> Forall isDigit ds ->
  JS.parseInt (string_of_list_ascii ds)
  = JS.parseDigits 10 (string_of_list_ascii ds) None.
Proof.
  intros Hne Hall.
  destruct ds as [|c0 ds]; [contradiction|].
  inversion Hall as [|? ? (d0 & Hd0 & ->) Hrest]; subst.
  assert (Hval : forall s, JS.parseDigits 10 s None
                           = match JS.parseDigits 10 s None with
                             | Some n => Some (1 * n)
                             | None => None
                             end).
  { intros s. destruct (JS.parseDigits 10 s None) as [n|]; [|reflexivity].
    f_equal. lia. }
  each_digit d0 Hd0;
    try (unfold JS.parseInt; cbn -[JS.parseDigits Z.mul]; symmetry; apply Hval).
  (* the first digit is 0: the second is no [x] *)
  destruct ds as [|c1 ds].
  - reflexivity.
  - inversion Hrest as [|? ? (d1 & Hd1 & ->) _]; subst.
    each_digit d1 Hd1;
      unfold JS.parseInt; cbn -[JS.parseDigits Z.mul]; symmetry; apply Hval.
Qed.

(** C6, the numeric half: the decimal text of a count that is not
    negative reads back as the count. *)
Lemma parseInt_numberToString (n : Z) :
  0 <= n -> JS.parseInt (JS.numberToString n) = Some n.
Proof.
  intros Hn. unfold JS.numberToString.
  destruct (Z.ltb_spec n 0) as [Hneg|_]; [lia|].
  rewrite parseInt_digits by (apply digitsOf_not_nil || apply digitsOf_all).
  apply parseDigits_digitsOf, Hn.
Qed.

End DecimalFacts.

(** ** Lines and fields *)

Module TextFacts.
Import DecimalFacts.

Lemma prefix_empty (s : string) : String.prefix "" s = true.
Proof. destruct s; reflexivity. Qed.

Lemma includes_char (c : ascii) (s : string) :
  JS.includes s (String c EmptyString) = occurs c s.
Proof.
  induction s as [|a s IH]; simpl; [reflexivity|].
  rewrite IH, prefix_empty.
  destruct (ascii_dec c a) as [->|Hne].
  - rewrite Ascii.eqb_refl. reflexivity.
  - destruct (Ascii.eqb_spec a c); [congruence | reflexivity].
Qed.

Lemma occurs_app (c : ascii) (s1 s2 : string) :
  occurs c (s1 ++ s2) = occurs c s1 || occurs c s2.
Proof.
  induction s1 as [|a s1 IH]; simpl; [reflexivity|].
  rewrite IH, orb_assoc. reflexivity.
Qed.

Lemma occurs_digits (c : ascii) (ds : list ascii) :
  (forall a, isDigit a -> Ascii.eqb a c = false) ->
  Forall isDigit ds -> occurs c (string_of_list_ascii ds) = false.
Proof.
  intros Hc. induction 1 as [|a ds Ha _ IH]; simpl; [reflexivity|].
  rewrite (Hc a Ha), IH. reflexivity.
Qed.

(** *** [split] *)

Lemma split_not_nil (sep : ascii) (s : string) : JS.split sep s <> [].
Proof.
  induction s as [|a s IH]; simpl; [discriminate|].
  destruct (Ascii.eqb a sep); [discriminate|].
  destruct (JS.split sep s); [contradiction | discriminate].
Qed.

Lemma split_field (sep : ascii) (s : string) :
  occurs sep s = false -> JS.split sep s = [s].
Proof.
  induction s as [|a s IH]; simpl; [reflexivity|].
  intros H. apply orb_false_elim in H. destruct H as [Ha Hs].
  rewrite Ha, (IH Hs). reflexivity.
Qed.

Lemma split_first (sep : ascii) (s rest : string) :
  occurs sep s = false ->
  JS.split sep (s ++ String sep rest) = s :: JS.split sep rest.
Proof.
  induction s as [|a s IH]; simpl.
  - intros _. rewrite Ascii.eqb_refl. reflexivity.
  - intros H. apply orb_false_elim in H. destruct H as [Ha Hs].
    rewrite Ha, (IH Hs). reflexivity.
Qed.

(** *** [trim] *)

Lemma trimStart_ink (s : string) : hasInk (JS.trimStart s) = hasInk s.
Proof.
  unfold hasInk. induction s as [|a s IH]; simpl; [reflexivity|].
  destruct (JS.isWhiteSpace a) eqn:Ha; simpl; [exact IH|].
  rewrite Ha. reflexivity.
Qed.

Lemma existsb_rev_eq {A : Type} (f : A -> bool) (l : list A) :
  existsb f (List.rev l) = existsb f l.
Proof.
  induction l as [|a l IH]; simpl; [reflexivity|].
  rewrite existsb_app, IH; simpl. rewrite orb_false_r. apply orb_comm.
Qed.

Lemma rev_ink (s : string) : hasInk (JS.rev s) = hasInk s.
Proof.
  unfold hasInk, JS.rev.
  rewrite list_ascii_of_string_of_list_ascii. apply existsb_rev_eq.
Qed.

Lemma trim_ink (s : string) : hasInk (JS.trim s) = hasInk s.
Proof.
  unfold JS.trim, JS.trimEnd.
  rewrite rev_ink, trimStart_ink, rev_ink, trimStart_ink. reflexivity.
Qed.

(** A line with a code unit that is not white space passes the filter
    [line => line.trim()]. *)
Lemma trim_truthy (s : string) : hasInk s = true -> JS.truthy (JS.trim s) = true.
Proof.
  intros H. rewrite <- trim_ink in H.
  destruct (JS.trim s); [discriminate H | reflexivity].
Qed.

Lemma hasInk_app (s1 s2 : string) : hasInk (s1 ++ s2) = hasInk s1 || hasInk s2.
Proof.
  unfold hasInk. induction s1 as [|a s1 IH]; simpl; [reflexivity|].
  rewrite IH, orb_assoc. reflexivity.
Qed.

End TextFacts.

(** ** Round trip of the primary table *)

Module PrimaryTableProperties.
Import PrimaryTable DecimalFacts TextFacts.

Lemma numberToString_nonneg (n : Z) :
  0 <= n -> JS.numberToString n = string_of_list_ascii (JS.digitsOf n).
Proof.
  intros Hn. unfold JS.numberToString.
  destruct (Z.ltb_spec n 0); [lia | reflexivity].
Qed.

Lemma append_assoc (a b c : string) : (a ++ b) ++ c = a ++ (b ++ c).
Proof. induction a as [|x a IH]; simpl; [reflexivity | rewrite IH; reflexivity]. Qed.

Lemma append_empty_r (a : string) : a ++ "" = a.
Proof. induction a as [|x a IH]; simpl; [reflexivity | rewrite IH; reflexivity]. Qed.

Lemma concat_empty_cons (x : string) (xs : list string) :
  String.concat "" (x :: xs) = x ++ String.concat "" xs.
Proof.
  destruct xs as [|y xs]; simpl; [rewrite append_empty_r; reflexivity | reflexivity].
Qed.

Section PlainRow.
Variable r : Row.
Hypothesis plain : plainRow r = true.

Lemma plain_parts :
  JS.truthy (fst r) = true /\ occurs "," (fst r) = false
  /\ occurs "010" (fst r) = false /\ 0 <= snd r.
Proof.
  unfold plainRow, newline in plain.
  rewrite !andb_true_iff, !negb_true_iff, !includes_char in plain.
  destruct plain as [[[[H1 H2] H3] H4] _]. apply Z.leb_le in H4. auto.
Qed.

Lemma serializeRow_one_line : occurs "010" (serializeRow r) = false.
Proof.
  destruct plain_parts as (_ & _ & Hlf & Hn).
  unfold serializeRow. rewrite occurs_app, Hlf. simpl.
  rewrite numberToString_nonneg by exact Hn.
  apply occurs_digits; [apply digit_not_line_feed | apply digitsOf_all].
Qed.

Lemma serializeRow_ink : hasInk (serializeRow r) = true.
Proof.
  unfold serializeRow. rewrite hasInk_app.
  apply orb_true_iff; right. reflexivity.
Qed.

(** The loop body of the client reads back the row it was printed from. *)
Lemma parseRow_serializeRow : ResultsChecker.parseRow (serializeRow r) = Some r.
Proof.
  destruct plain_parts as (Hname & Hcomma & _ & Hn).
  unfold ResultsChecker.parseRow, serializeRow.
  change ("," ++ JS.numberToString (snd r))
    with (String "," (JS.numberToString (snd r))).
  rewrite (split_first "," _ _ Hcomma).
  rewrite split_field.
  - rewrite Hname, (parseInt_numberToString _ Hn).
    rewrite numberToString_nonneg by exact Hn.
    destruct (JS.digitsOf (snd r)) as [|c ds] eqn:Hds;
      [exfalso; exact (digitsOf_not_nil _ Hds)|].
    simpl. destruct r; reflexivity.
  - rewrite numberToString_nonneg by exact Hn.
    apply occurs_digits; [apply digit_not_comma | apply digitsOf_all].
Qed.
End PlainRow.

Lemma serialize_body (rows : list Row) :
  serialize rows = "itemName,count" ++ String "010" (body rows).
Proof.
  unfold serialize, body. rewrite map_cons, concat_empty_cons.
  unfold newline. rewrite append_assoc. reflexivity.
Qed.

Lemma split_body (rows : list Row) :
  Forall (fun r => plainRow r = true) rows ->
  JS.split "010" (body rows) = (List.map serializeRow rows ++ [""])%list.
Proof.
  unfold body.
  induction 1 as [|r rows Hr _ IH]; [reflexivity|].
  rewrite !map_cons, concat_empty_cons.
  unfold newline at 1. rewrite append_assoc.
  change (String "010" "" ++ ?s) with (String "010" s).
  rewrite (split_first "010" _ _ (serializeRow_one_line r Hr)), IH.
  reflexivity.
Qed.

Lemma linesOf_serialize (rows : list Row) :
  Forall (fun r => plainRow r = true) rows ->
  ResultsChecker.linesOf (serialize rows)
  = "itemName,count" :: List.map serializeRow rows.
Proof.
  intros Hrows. unfold ResultsChecker.linesOf.
  rewrite serialize_body, (split_first "010" "itemName,count" _ eq_refl),
    (split_body rows Hrows).
  cbn [filter].
  rewrite (trim_truthy "itemName,count" eq_refl).
  f_equal.
  induction Hrows as [|r rows Hr _ IH]; [reflexivity|].
  cbn [List.map app filter].
  rewrite (trim_truthy _ (serializeRow_ink r)), IH. reflexivity.
Qed.

(** C6, as the code reads tables.  Modelled from the spec on the side of
    the writer: a table whose item names are non-empty and hold neither
    comma nor line feed, and whose counts are not negative and do not exceed
    2^53 - 1, printed with its header and one line per row, is read back by
    the client as the same rows, in the same order. *)
Theorem round_trip_plain_rows (rows : list Row) :
  Forall (fun r => plainRow r = true) rows ->
  parse (serialize rows) = rows.
Proof.
  intros Hrows.
  unfold parse. rewrite (linesOf_serialize rows Hrows). cbn [skipn].
  induction Hrows as [|r rows Hr _ IH]; [reflexivity|].
  cbn [List.map flat_map]. rewrite (parseRow_serializeRow r Hr), IH. reflexivity.
Qed.

Lemma round_trip_plain_rows_witness :
  parse (serialize [("a.jpg", 2); ("b.png", 5); ("empty nest.gif", 0)])
  = [("a.jpg", 2); ("b.png", 5); ("empty nest.gif", 0)].
Proof.
  apply (round_trip_plain_rows [("a.jpg", 2); ("b.png", 5); ("empty nest.gif", 0)]).
  repeat constructor.
Defined.

(** C6 as stated fails: a row whose item name holds a comma is read back
    under another name and with another count. *)
Lemma comma_in_name_breaks_round_trip :
  serialize [("a,b.jpg", 3)]
  = "itemName,count" ++ newline ++ "a,b.jpg,3" ++ newline
  /\ parse (serialize [("a,b.jpg", 3)]) = [("a", 0)]
  /\ parse (serialize [("a,b.jpg", 3)]) <> [("a,b.jpg", 3)].
Proof.
  split; [reflexivity|]. split; [reflexivity|].
  vm_compute. discriminate.
Qed.

End PrimaryTableProperties.

(** ** Calendar fields of a time value *)

Module DateFacts.
Import JSDate.

(** The year of a day is the one whose first day is the last not after
    it. *)
Lemma YearFromDay_spec (d : Z) :
  DayFromYear (YearFromDay d) <= d < DayFromYear (YearFromDay d + 1).
Proof.
  unfold YearFromDay.
  destruct (Z.leb_spec (DayFromYear (1970 + d * 400 / 146097 + 1)) d) as [H1|H1];
    [|destruct (Z.leb_spec (DayFromYear (1970 + d * 400 / 146097)) d) as [H2|H2]];
    unfold DayFromYear in *; Z.div_mod_to_equations; lia.
Qed.

(** A year has 365 days and its leap day. *)
Lemma year_length (y : Z) : DayFromYear (y + 1) - DayFromYear y = 365 + leapDay y.
Proof.
  unfold leapDay, isLeap, DayFromYear.
  destruct (Z.eqb_spec (y mod 4) 0), (Z.eqb_spec (y mod 100) 0),
    (Z.eqb_spec (y mod 400) 0); cbn [andb orb negb];
    Z.div_mod_to_equations; lia.
Qed.

Lemma leapDay_range (y : Z) : 0 <= leapDay y <= 1.
Proof. unfold leapDay. destruct (isLeap y); lia. Qed.

Lemma DayWithinYear_range (t : Z) :
  0 <= DayWithinYear t < 365 + leapDay (YearFromTime t).
Proof.
  unfold DayWithinYear, YearFromTime.
  pose proof (YearFromDay_spec (Day t)).
  pose proof (year_length (YearFromDay (Day t))). lia.
Qed.

Lemma MonthFromTime_range (t : Z) : 0 <= MonthFromTime t <= 11.
Proof.
  unfold MonthFromTime, MonthFromDay.
  repeat match goal with |- context [?a <? ?b] => destruct (a <? b) end; lia.
Qed.

(** The date within the month lies between 1 and 31. *)
Lemma DateFromTime_range (t : Z) : 1 <= DateFromTime t <= 31.
Proof.
  unfold DateFromTime, MonthFromTime.
  pose proof (DayWithinYear_range t) as Hd.
  pose proof (leapDay_range (YearFromTime t)) as Hl.
  set (dwy := DayWithinYear t) in *. set (leap := leapDay (YearFromTime t)) in *.
  unfold MonthFromDay.
  repeat match goal with
         | |- context [?a <? ?b] => destruct (Z.ltb_spec a b)
         end; cbn [monthStart]; lia.
Qed.

Lemma time_fields_range (t : Z) :
  0 <= HourFromTime t < 24 /\ 0 <= MinFromTime t < 60
  /\ 0 <= SecFromTime t < 60 /\ 0 <= msFromTime t < 1000.
Proof.
  unfold HourFromTime, MinFromTime, SecFromTime, msFromTime.
  repeat split; apply Z.mod_pos_bound; lia.
Qed.

(** The day is given back by year, month and date. *)
Lemma Day_from_fields (t : Z) :
  Day t = DayFromYear (YearFromTime t)
          + monthStart (leapDay (YearFromTime t)) (MonthFromTime t)
          + DateFromTime t - 1.
Proof. unfold DateFromTime, DayWithinYear. lia. Qed.

(** The time within the day is given back by hour, minute, second and
    millisecond. *)
Lemma TimeWithinDay_from_fields (t : Z) :
  TimeWithinDay t
  = HourFromTime t * 3600000 + MinFromTime t * 60000 + SecFromTime t * 1000
    + msFromTime t.
Proof.
  unfold TimeWithinDay, msPerDay, HourFromTime, MinFromTime, SecFromTime, msFromTime.
  Z.div_mod_to_equations. lia.
Qed.

(** The seven fields printed by [toISOString] determine the time value. *)
Lemma fields_determine_time (t1 t2 : Z) :
  YearFromTime t1 = YearFromTime t2 ->
  MonthFromTime t1 = MonthFromTime t2 ->
  DateFromTime t1 = DateFromTime t2 ->
  HourFromTime t1 = HourFromTime t2 ->
  MinFromTime t1 = MinFromTime t2 ->
  SecFromTime t1 = SecFromTime t2 ->
  msFromTime t1 = msFromTime t2 ->
  t1 = t2.
Proof.
  intros Hy Hm Hd Hh Hmi Hs Hms.
  assert (HD : Day t1 = Day t2)
    by (rewrite (Day_from_fields t1), (Day_from_fields t2), Hy, Hm, Hd; reflexivity).
  assert (HT : TimeWithinDay t1 = TimeWithinDay t2)
    by (rewrite !TimeWithinDay_from_fields, Hh, Hmi, Hs, Hms; reflexivity).
  unfold Day, TimeWithinDay, msPerDay in *.
  rewrite (Z.div_mod t1 86400000), (Z.div_mod t2 86400000) by lia.
  rewrite HD, HT. reflexivity.
Qed.

(** The years of the time values a [Date] can hold fit on six digits. *)
Lemma YearFromTime_bound (t : Z) :
  validTime t -> -271821 <= YearFromTime t <= 275760.
Proof.
  unfold validTime, YearFromTime. intros Ht.
  pose proof (YearFromDay_spec (Day t)) as Hy.
  assert (Hd : -100000000 <= Day t <= 100000000)
    by (unfold Day, msPerDay; Z.div_mod_to_equations; lia).
  set (y := YearFromDay (Day t)) in *.
  unfold DayFromYear in Hy. Z.div_mod_to_equations. lia.
Qed.

End DateFacts.

(** ** Keys of uploads *)

Module UploadKeyProperties.
Import JSDate S3FileUploader DecimalFacts DateFacts UploadExamples.

Lemma length_append (a b : string) :
  String.length (a ++ b) = (String.length a + String.length b)%nat.
Proof. induction a as [|c a IH]; simpl; [reflexivity | rewrite IH; reflexivity]. Qed.

(** Two texts that agree after heads of the same length have the same
    heads and the same tails. *)
Lemma append_inj_length (a b x y : string) :
  String.length a = String.length b -> a ++ x = b ++ y -> a = b /\ x = y.
Proof.
  revert b; induction a as [|c a IH]; intros [|d b] Hlen H; simpl in *;
    try discriminate.
  - split; [reflexivity | exact H].
  - injection H as -> H. injection Hlen as Hlen.
    destruct (IH b Hlen H) as [-> ->]. split; reflexivity.
Qed.

Lemma digitChar_inj (a b : Z) :
  0 <= a <= 9 -> 0 <= b <= 9 -> JS.digitChar a = JS.digitChar b -> a = b.
Proof.
  intros Ha Hb H. apply (f_equal (JS.digitVal 10)) in H.
  rewrite !digitVal_digitChar in H by assumption. congruence.
Qed.

Lemma pad_length (k : nat) (n : Z) : String.length (pad k n) = k.
Proof.
  revert n; induction k as [|k IH]; intros n; cbn [pad]; [reflexivity|].
  rewrite length_append, IH. simpl. lia.
Qed.

(** A field printed on [k] digits is read off the text it heads. *)
Lemma pad_inj (k : nat) (a b : Z) (r r' : string) :
  0 <= a < 10 ^ Z.of_nat k -> 0 <= b < 10 ^ Z.of_nat k ->
  pad k a ++ r = pad k b ++ r' -> a = b /\ r = r'.
Proof.
  revert a b r r'; induction k as [|k IH]; intros a b r r' Ha Hb H.
  - change (10 ^ Z.of_nat 0) with 1 in *. simpl in H. split; [lia | exact H].
  - cbn [pad] in H.
    rewrite !PrimaryTableProperties.append_assoc in H.
    replace (Z.of_nat (S k)) with (Z.succ (Z.of_nat k)) in * by lia.
    rewrite Z.pow_succ_r in * by lia.
    assert (Ha' : 0 <= a / 10 < 10 ^ Z.of_nat k)
      by (split; [apply Z.div_pos; lia | apply Z.div_lt_upper_bound; lia]).
    assert (Hb' : 0 <= b / 10 < 10 ^ Z.of_nat k)
      by (split; [apply Z.div_pos; lia | apply Z.div_lt_upper_bound; lia]).
    destruct (IH _ _ _ _ Ha' Hb' H) as [Hq Hrest].
    cbn [append] in Hrest. injection Hrest as Hd Hr.
    apply digitChar_inj in Hd;
      [|pose proof (Z.mod_pos_bound a 10); lia | pose proof (Z.mod_pos_bound b 10); lia].
    split; [|exact Hr].
    rewrite (Z.div_mod a 10), (Z.div_mod b 10) by lia. congruence.
Qed.

Lemma replaceAll_app (sel : ascii -> bool) (to : ascii) (a b : string) :
  JS.replaceAll sel to (a ++ b) = JS.replaceAll sel to a ++ JS.replaceAll sel to b.
Proof. induction a as [|c a IH]; simpl; [reflexivity | rewrite IH; reflexivity]. Qed.

Lemma digit_not_colon_or_dot (d : Z) : isColonOrDot (JS.digitChar (d mod 10)) = false.
Proof.
  pose proof (Z.mod_pos_bound d 10) as H.
  assert (Hd : 0 <= d mod 10 <= 9) by lia. clear H.
  generalize dependent (d mod 10). intros x Hd. each_digit x Hd; reflexivity.
Qed.

(** The replacement of colons and dots leaves the digits of a field. *)
Lemma replaceAll_pad (k : nat) (n : Z) :
  JS.replaceAll isColonOrDot "-" (pad k n) = pad k n.
Proof.
  revert n; induction k as [|k IH]; intros n; cbn [pad]; [reflexivity|].
  rewrite replaceAll_app, IH. cbn [JS.replaceAll].
  rewrite digit_not_colon_or_dot. reflexivity.
Qed.

Lemma replaceAll_yearString (y : Z) :
  JS.replaceAll isColonOrDot "-" (yearString y) = yearString y.
Proof.
  unfold yearString.
  destruct ((0 <=? y) && (y <=? 9999)); [apply replaceAll_pad|].
  destruct (y <? 0); cbn [JS.replaceAll]; rewrite replaceAll_pad; reflexivity.
Qed.

(** The key, field by field. *)
Lemma uploadKey_fields (now : Z) (file : File) :
  uploadKey now file
  = "uploads/" ++ yearString (YearFromTime now) ++ "-" ++ pad 2 (MonthFromTime now + 1)
    ++ "-" ++ pad 2 (DateFromTime now) ++ "T" ++ pad 2 (HourFromTime now)
    ++ "-" ++ pad 2 (MinFromTime now) ++ "-" ++ pad 2 (SecFromTime now)
    ++ "-" ++ pad 3 (msFromTime now) ++ "Z" ++ "-" ++ name file.
Proof.
  unfold uploadKey, toISOString.
  repeat (rewrite replaceAll_app
          || rewrite replaceAll_pad || rewrite replaceAll_yearString).
  cbn [JS.replaceAll isColonOrDot Ascii.eqb Bool.eqb orb].
  repeat rewrite PrimaryTableProperties.append_assoc.
  reflexivity.
Qed.

Lemma String_tail_inj (c : ascii) (a b : string) : String c a = String c b -> a = b.
Proof. intros H. injection H as H. exact H. Qed.

Lemma first_digit_not_sign (d : Z) (c : ascii) :
  c = "-"%char \/ c = "+"%char -> JS.digitChar (d mod 10) <> c.
Proof.
  pose proof (Z.mod_pos_bound d 10) as H.
  assert (Hd : 0 <= d mod 10 <= 9) by lia. clear H.
  generalize dependent (d mod 10). intros x Hd Hc.
  each_digit x Hd; destruct Hc as [-> | ->]; discriminate.
Qed.

(** The printed year is read off the text it heads: four digits, or a
    sign and six digits. *)
Lemma yearString_inj (y1 y2 : Z) (r1 r2 : string) :
  -999999 <= y1 <= 999999 -> -999999 <= y2 <= 999999 ->
  yearString y1 ++ r1 = yearString y2 ++ r2 -> y1 = y2 /\ r1 = r2.
Proof.
  intros H1 H2. unfold yearString.
  destruct (Z.leb_spec 0 y1) as [Hp1|Hn1], (Z.leb_spec y1 9999) as [Hs1|Hb1];
    destruct (Z.leb_spec 0 y2) as [Hp2|Hn2], (Z.leb_spec y2 9999) as [Hs2|Hb2];
    cbn [andb]; try lia;
    repeat match goal with
           | |- context [?a <? 0] => destruct (Z.ltb_spec a 0); try lia
           end;
    intros Heq.
  all: try (apply (pad_inj 4) in Heq;
            [exact Heq | change (10 ^ Z.of_nat 4) with 10000; lia ..]).
  all: try (cbn [append] in Heq; apply String_tail_inj in Heq;
            apply (pad_inj 6) in Heq; [|change (10 ^ Z.of_nat 6) with 1000000; lia ..];
            destruct Heq as [Hy Hr]; split; [lia | exact Hr]).
  all: exfalso; cbn [pad append] in Heq; injection Heq as Hc _;
    first [ eapply first_digit_not_sign; [|exact Hc]; auto
          | eapply first_digit_not_sign; [|symmetry; exact Hc]; auto
          | discriminate ].
Qed.

(** The derivation of the key is injective on the time values a [Date]
    can hold and the file names. *)
Lemma uploadKey_inj (now1 now2 : Z) (f1 f2 : File) :
  validTime now1 -> validTime now2 ->
  uploadKey now1 f1 = uploadKey now2 f2 ->
  now1 = now2 /\ name f1 = name f2.
Proof.
  intros Hv1 Hv2 H.
  rewrite !uploadKey_fields in H.
  pose proof (YearFromTime_bound now1 Hv1) as Hy1.
  pose proof (YearFromTime_bound now2 Hv2) as Hy2.
  pose proof (MonthFromTime_range now1) as Hm1.
  pose proof (MonthFromTime_range now2) as Hm2.
  pose proof (DateFromTime_range now1) as Hd1.
  pose proof (DateFromTime_range now2) as Hd2.
  destruct (time_fields_range now1) as (Hh1 & Hmi1 & Hs1 & Hms1).
  destruct (time_fields_range now2) as (Hh2 & Hmi2 & Hs2 & Hms2).
  cbn [append] in H.
  do 8 apply String_tail_inj in H.
  apply yearString_inj in H; [|lia ..]. destruct H as [Hy H].
  cbn [append] in H; apply String_tail_inj in H.
  apply (pad_inj 2) in H; [|change (10 ^ Z.of_nat 2) with 100; lia ..].
  destruct H as [Hm H].
  cbn [append] in H; apply String_tail_inj in H.
  apply (pad_inj 2) in H; [|change (10 ^ Z.of_nat 2) with 100; lia ..].
  destruct H as [Hd H].
  cbn [append] in H; apply String_tail_inj in H.
  apply (pad_inj 2) in H; [|change (10 ^ Z.of_nat 2) with 100; lia ..].
  destruct H as [Hh H].
  cbn [append] in H; apply String_tail_inj in H.
  apply (pad_inj 2) in H; [|change (10 ^ Z.of_nat 2) with 100; lia ..].
  destruct H as [Hmi H].
  cbn [append] in H; apply String_tail_inj in H.
  apply (pad_inj 2) in H; [|change (10 ^ Z.of_nat 2) with 100; lia ..].
  destruct H as [Hs H].
  cbn [append] in H; apply String_tail_inj in H.
  apply (pad_inj 3) in H; [|change (10 ^ Z.of_nat 3) with 1000; lia ..].
  destruct H as [Hms H].
  cbn [append] in H; do 2 apply String_tail_inj in H.
  split; [|exact H].
  apply fields_determine_time; lia.
Qed.

(** C5. The key of an upload is [uploads/], the ISO timestamp with its
    colons and its dot replaced by hyphens, a hyphen and the original name;
    two uploads whose pairs of submission time and original name differ get
    different keys, so that neither overwrites the other. *)
Theorem upload_keys_distinct (now1 now2 : Z) (f1 f2 : File) :
  validTime now1 -> validTime now2 ->
  (now1, name f1) <> (now2, name f2) ->
  uploadKey now1 f1 <> uploadKey now2 f2
  /\ uploadKey now1 f1
     = "uploads/" ++ JS.replaceAll isColonOrDot "-" (toISOString now1) ++ "-" ++ name f1.
Proof.
  intros Hv1 Hv2 Hne. split; [|reflexivity].
  intros Heq. apply Hne.
  destruct (uploadKey_inj now1 now2 f1 f2 Hv1 Hv2 Heq) as [-> ->]. reflexivity.
Qed.

Lemma upload_keys_distinct_witness :
  uploadKey leapDayNoon archive <> uploadKey (leapDayNoon + 1) archive
  /\ uploadKey leapDayNoon archive <> uploadKey leapDayNoon cameraPhoto.
Proof.
  split.
  - apply (upload_keys_distinct leapDayNoon (leapDayNoon + 1) archive archive).
    + unfold validTime, leapDayNoon; lia.
    + unfold validTime, leapDayNoon; lia.
    + unfold leapDayNoon; intros H; injection H as H; lia.
  - apply (upload_keys_distinct leapDayNoon leapDayNoon archive cameraPhoto).
    + unfold validTime, leapDayNoon; lia.
    + unfold validTime, leapDayNoon; lia.
    + intros H; injection H as H; discriminate H.
Defined.

End UploadKeyProperties.

(** ** More on the start-up script *)

Module LifecycleMore.
Import Lifecycle LifecycleProperties.

Lemma withFile_has (f g : string) (l : list string) :
  existsb (String.eqb f) (withFile g l) = String.eqb f g || existsb (String.eqb f) l.
Proof.
  unfold withFile. destruct (existsb (String.eqb g) l) eqn:Hg; [|reflexivity].
  destruct (String.eqb_spec f g) as [->|_]; [|reflexivity].
  rewrite Hg. reflexivity.
Qed.

Lemma fetch_unfold (m : Machine) (sh : Shell) :
  fetch m sh
  = Next {| files := (if copySucceeds m then withFile script else fun l => l)
                       (withFile "/home/ec2-user/SageMaker/config.json" (files sh));
            log := (log sh ++ ["Installing packages...";
                               "Configuration written: CONFIG_JSON_PLACEHOLDER";
                               "Copying production script from S3..."])%list;
            started := started sh;
            status := if copySucceeds m then 0 else 1 |}.
Proof.
  unfold fetch, andThen, command, echo, writeFile, awsS3Cp, hasFile, withFile, setStatus.
  cbn [files log started status].
  destruct (copySucceeds m); cbn [files log started status];
    rewrite <- !app_assoc; reflexivity.
Qed.

Lemma fetch_files (m : Machine) (sh sh' : Shell) :
  fetch m sh = Next sh' ->
  log sh' = (log sh ++ ["Installing packages...";
                        "Configuration written: CONFIG_JSON_PLACEHOLDER";
                        "Copying production script from S3..."])%list
  /\ (copySucceeds m = true -> hasFile script sh' = true)
  /\ (copySucceeds m = false -> hasFile script sh' = hasFile script sh).
Proof.
  rewrite fetch_unfold. intros [= <-]. unfold hasFile; cbn [files log].
  repeat split.
  - intros ->. rewrite withFile_has, String.eqb_refl. reflexivity.
  - intros ->. rewrite withFile_has. reflexivity.
Qed.

(** When the script file is there after the copy step, because the copy
    succeeded or because an earlier start left a copy, the runner starts it
    once, logs no error, and ends with the status of the program. *)
Theorem runner_starts_script_when_present (m : Machine) (sh sh' : Shell) :
  fetch m sh = Next sh' ->
  hasFile script sh' = true ->
  runShell (runner m) sh
  = (pythonStatus m,
     {| files := files sh';
        log := (log sh' ++ ["Running production script..."])%list;
        started := (started sh ++ [script])%list;
        status := pythonStatus m |}).
Proof.
  intros Hfetch Hthere.
  destruct (fetch_goes_on m sh) as (sh1 & Hsh1 & Hstarted).
  assert (sh1 = sh') by congruence; subst sh1.
  unfold runShell, runner. unfold andThen at 1. rewrite Hfetch.
  unfold launch, andThen, ifNotFile. rewrite Hthere.
  unfold command, echo, python3, setStatus; simpl. rewrite Hstarted. reflexivity.
Qed.

(** A failed copy goes unnoticed when the volume still holds the script
    of an earlier start: the old script is started and no error is
    logged. *)
Theorem stale_script_runs_after_failed_copy (m : Machine) (sh : Shell) :
  copySucceeds m = false ->
  hasFile script sh = true ->
  started (snd (runShell (runner m) sh)) = (started sh ++ [script])%list
  /\ fst (runShell (runner m) sh) = pythonStatus m
  /\ ~ In "ERROR: Failed to download script from S3"
          (skipn (length (log sh)) (log (snd (runShell (runner m) sh)))).
Proof.
  intros Hfail Hold.
  destruct (fetch_goes_on m sh) as (sh' & Hfetch & _).
  destruct (fetch_files m sh sh' Hfetch) as (Hlog & _ & Hkeep).
  assert (Hthere : hasFile script sh' = true) by (rewrite (Hkeep Hfail); exact Hold).
  destruct (fetch_goes_on m sh) as (sh1 & Hsh1 & Hstarted).
  assert (sh1 = sh') by congruence; subst sh1.
  assert (Hrun : runShell (runner m) sh
                 = (pythonStatus m,
                    {| files := files sh';
                       log := (log sh' ++ ["Running production script..."])%list;
                       started := (started sh ++ [script])%list;
                       status := pythonStatus m |})).
  { unfold runShell, runner. unfold andThen at 1. rewrite Hfetch.
    unfold launch, andThen, ifNotFile. rewrite Hthere.
    unfold command, echo, python3, setStatus; simpl. rewrite Hstarted. reflexivity. }
  rewrite Hrun. cbn [fst snd started log]. repeat split.
  rewrite Hlog, <- app_assoc, skipn_app, Nat.sub_diag, skipn_all. simpl.
  intros [H|[H|[H|[H|[]]]]]; discriminate H.
Qed.

Lemma runner_starts_script_when_present_witness :
  runShell (runner MoreExamples.online) UploadExamples.fresh
  = (0, {| files := files MoreExamples.afterCopy;
           log := (log MoreExamples.afterCopy ++ ["Running production script..."])%list;
           started := [script];
           status := 0 |}).
Proof.
  apply (runner_starts_script_when_present MoreExamples.online UploadExamples.fresh
           MoreExamples.afterCopy); reflexivity.
Defined.

Lemma stale_script_runs_after_failed_copy_witness :
  started (snd (runShell (runner UploadExamples.offline) MoreExamples.usedVolume))
  = [script]
  /\ fst (runShell (runner UploadExamples.offline) MoreExamples.usedVolume) = 0.
Proof.
  destruct (stale_script_runs_after_failed_copy UploadExamples.offline
              MoreExamples.usedVolume eq_refl eq_refl) as (Hs & Hc & _).
  split; [exact Hs | exact Hc].
Defined.

End LifecycleMore.

(** ** More on the Discovery client *)

Module ResultsCheckerMore.
Import Storage ResultsChecker ResultsCheckerFacts.

Lemma hasTwoFields_parseRow (line : string) :
  hasTwoFields line = match parseRow line with Some _ => true | None => false end.
Proof.
  unfold hasTwoFields, parseRow.
  destruct (JS.split "," line) as [|field1 [|field2 fields]]; try reflexivity.
  destruct (JS.truthy field1 && JS.truthy field2); reflexivity.
Qed.

(** The line count of an entry: the data lines whose first two fields are
    both non-empty are counted, whatever the second reads as. *)
Theorem fileCount_counts_rows_with_two_fields (dataLines : list string) :
  snd (countRows dataLines) = Z.of_nat (length (filter hasTwoFields dataLines))
  /\ 0 <= snd (countRows dataLines) <= Z.of_nat (length dataLines).
Proof.
  unfold countRows.
  assert (Hgen : forall total count,
             snd (fold_left
                    (fun '(totalBirds, fileCount) line =>
                       match parseRow line with
                       | Some (_, n) => (totalBirds + n, fileCount + 1)
                       | None => (totalBirds, fileCount)
                       end) dataLines (total, count))
             = count + Z.of_nat (length (filter hasTwoFields dataLines))).
  { induction dataLines as [|line rest IH]; intros total count.
    - simpl. lia.
    - cbn [fold_left filter]. rewrite (hasTwoFields_parseRow line).
      destruct (parseRow line) as [[name n]|]; rewrite IH; cbn [length]; lia. }
  rewrite (Hgen 0 0). split; [reflexivity|].
  pose proof (filter_length_le hasTwoFields dataLines). lia.
Qed.




(** What a run leaves in the component: a run that finds a check under
    way changes nothing and does nothing; any other run ends with no check
    under way, and the time of the last check is set exactly when the
    listing held a CSV file. *)
Theorem state_after_run (env : Storage.t) (now : Z) (st : State) :
  (isChecking st = true -> checkForResults env now st = (st, []))
  /\ (isChecking st = false ->
      isChecking (fst (checkForResults env now st)) = false
      /\ lastCheck (fst (checkForResults env now st))
         = match csvFilesOf (listing env) with
           | [] => lastCheck st
           | _ :: _ => Some now
           end).
Proof.
  unfold checkForResults, listing. split; intros ->; [reflexivity|].
  destruct (list_ env "public/results/") as [[[its|]]|]; cbn [items];
    try (split; reflexivity).
  destruct (csvFilesOf its) as [|f fs]; [split; reflexivity|].
  cbn [length Nat.eqb].
  destruct (processFiles env now (JS.slice0 5 (f :: fs))). split; reflexivity.
Qed.

Lemma replaceAll_hyphen_free (s : string) :
  occurs "-" (JS.replaceAll (Ascii.eqb "-") ":" s) = false.
Proof.
  induction s as [|c s IH]; [reflexivity|].
  cbn [JS.replaceAll occurs]. rewrite IH, orb_false_r.
  destruct (Ascii.eqb_spec "-"%char c) as [<-|Hne]; [reflexivity|].
  apply Ascii.eqb_neq. congruence.
Qed.

Lemma matchBirdResults_needs_fragment (s : string) :
  JS.includes s "bird-results-" = false -> matchBirdResults s = None.
Proof.
  induction s as [|c s IH]; intros H.
  - reflexivity.
  - cbn [JS.includes] in H. apply orb_false_elim in H. destruct H as [Hp Hs].
    cbn [matchBirdResults]. rewrite Hp. apply IH, Hs.
Qed.

(** The time stamp shown for an entry never holds a hyphen, those of the
    date being turned into colons with the others, and it is [Unknown] for
    every key without the fragment [bird-results-]. *)
Theorem timestamp_shown (k : string) :
  occurs "-" (timestampOf k) = false
  /\ (JS.includes k "bird-results-" = false -> timestampOf k = "Unknown").
Proof.
  unfold timestampOf. split.
  - destruct (matchBirdResults k); [apply replaceAll_hyphen_free | reflexivity].
  - intros H. rewrite (matchBirdResults_needs_fragment k H). reflexivity.
Qed.


End ResultsCheckerMore.

(** ** More on uploads and triggers *)

Module UploadMore.
Import Backend S3FileUploader AccessPolicy TriggerProperties UploadKeyProperties.

Lemma substring_skip (a b : string) (i m : nat) :
  String.substring (String.length a + i) m (a ++ b) = String.substring i m b.
Proof. induction a as [|c a IH]; [reflexivity | exact IH]. Qed.

(** A text that ends with [p] still does when something is put before it. *)
Lemma endsWith_append (a b p : string) :
  JS.endsWith b p = true -> JS.endsWith (a ++ b) p = true.
Proof.
  unfold JS.endsWith. rewrite length_append.
  destruct (Nat.leb_spec (String.length p) (String.length b)) as [Hle|]; [|discriminate].
  destruct (Nat.leb_spec (String.length p) (String.length a + String.length b)); [|lia].
  replace (String.length a + String.length b - String.length p)%nat
    with (String.length a + (String.length b - String.length p))%nat by lia.
  rewrite substring_skip. auto.
Qed.

(** The selection of [handleFiles] keeps the order of the files, and
    selecting again among the files selected keeps them all and shows no
    alert. *)
Theorem handleFiles_stable (files : list File) :
  Subsequence (fst (handleFiles files)) files
  /\ handleFiles (fst (handleFiles files)) = (fst (handleFiles files), None).
Proof.
  unfold handleFiles; cbn [fst]. split.
  - induction files as [|f files IH]; simpl; [constructor|].
    destruct (isValidFile f); constructor; exact IH.
  - assert (Hagain : filter isValidFile (filter isValidFile files)
                     = filter isValidFile files).
    { induction files as [|f files IH]; simpl; [reflexivity|].
      destruct (isValidFile f) eqn:Hf; simpl; [rewrite Hf, IH|]; auto. }
    rewrite Hagain, Nat.eqb_refl. reflexivity.
Qed.

(** Every object whose creation starts the processor lies where a guest
    may write, and never under a results or processed path: what the
    pipeline publishes does not start it again. *)
Theorem triggers_only_under_uploads (k : string) :
  triggersProcessor k = true ->
  allowed guest write k = true /\ ~ underResults k.
Proof.
  rewrite triggersProcessor_unfold, allowed_unfold.
  intros H. apply andb_prop in H. destruct H as [Hp _].
  split.
  - cbn [Principal_eqb andb].
    apply orb_true_iff; left. rewrite orb_comm. exact Hp.
  - intros Hres. destruct (underResults_not_underUploads k Hres) as [H1 H2].
    rewrite H1, H2 in Hp. discriminate Hp.
Qed.

Lemma triggers_only_under_uploads_witness :
  allowed guest write "uploads/2024-02-29T12-30-45-123Z-birds.zip" = true
  /\ ~ underResults "uploads/2024-02-29T12-30-45-123Z-birds.zip".
Proof.
  apply (triggers_only_under_uploads "uploads/2024-02-29T12-30-45-123Z-birds.zip").
  reflexivity.
Defined.

(** A file whose name ends, in lower case, with [.zip] or an image
    extension is stored under a key that starts the processor, whatever the
    time of the upload, with or without the [public/] prefix. *)
Theorem upload_with_known_extension_starts_processor
        (now : Z) (file : File) (ext : string) :
  In ext (".zip" :: imageExtensions) ->
  JS.endsWith (name file) ext = true ->
  triggersProcessor (uploadKey now file) = true
  /\ triggersProcessor ("public/" ++ uploadKey now file) = true.
Proof.
  intros Hext Hends.
  assert (Hshape : exists stamp, uploadKey now file = "uploads/" ++ stamp ++ name file).
  { unfold uploadKey. eexists.
    rewrite <- (PrimaryTableProperties.append_assoc _ "-" (name file)). reflexivity. }
  destruct Hshape as [stamp Hkey]. rewrite Hkey.
  assert (Hsuffix : forall pre,
             existsb (fun e => JS.endsWith (pre ++ name file) e)
                     (".zip" :: imageExtensions) = true).
  { intros pre. apply existsb_exists. exists ext. split; [exact Hext|].
    apply endsWith_append, Hends. }
  rewrite !triggersProcessor_unfold. split.
  - rewrite (proj2 (startsWith_iff _ "uploads/")) by eauto. cbn [orb andb].
    specialize (Hsuffix ("uploads/" ++ stamp)).
    rewrite PrimaryTableProperties.append_assoc in Hsuffix.
    unfold imageExtensions in Hsuffix. cbn [existsb] in Hsuffix.
    rewrite orb_false_r, !orb_assoc in Hsuffix. exact Hsuffix.
  - change ("public/" ++ "uploads/" ++ stamp ++ name file)
      with ("public/uploads/" ++ stamp ++ name file).
    rewrite (proj2 (startsWith_iff ("public/uploads/" ++ stamp ++ name file)
                                   "public/uploads/")) by eauto.
    rewrite orb_true_r. cbn [andb].
    specialize (Hsuffix ("public/uploads/" ++ stamp)).
    rewrite PrimaryTableProperties.append_assoc in Hsuffix.
    unfold imageExtensions in Hsuffix. cbn [existsb] in Hsuffix.
    rewrite orb_false_r, !orb_assoc in Hsuffix. exact Hsuffix.
Qed.

Lemma upload_with_known_extension_starts_processor_witness :
  triggersProcessor (uploadKey UploadExamples.leapDayNoon UploadExamples.archive) = true
  /\ triggersProcessor
       ("public/" ++ uploadKey UploadExamples.leapDayNoon UploadExamples.archive) = true.
Proof.
  apply (upload_with_known_extension_starts_processor
           UploadExamples.leapDayNoon UploadExamples.archive ".zip").
  - left; reflexivity.
  - reflexivity.
Defined.

End UploadMore.

(** ** The upload of a batch *)

Module HandleUploadProperties.
Import S3FileUploader UploadKeyProperties.

Lemma calls_of_started (started : list (string * File)) :
  uploadCalls (List.map (fun '(k, f) => UploadCall k f) started) = started
  /\ handedOver (List.map (fun '(k, f) => UploadCall k f) started) = []
  /\ alerts (List.map (fun '(k, f) => UploadCall k f) started) = [].
Proof.
  induction started as [|[k f] rest (IH1 & IH2 & IH3)]; [repeat split|].
  cbn [List.map uploadCalls handedOver alerts flat_map app].
  fold (uploadCalls (List.map (fun '(k, f) => UploadCall k f) rest)).
  fold (handedOver (List.map (fun '(k, f) => UploadCall k f) rest)).
  fold (alerts (List.map (fun '(k, f) => UploadCall k f) rest)).
  rewrite IH1, IH2, IH3. repeat split.
Qed.

Lemma settle_length (outcomes : list UploadOutcome) :
  (length (fst (settle outcomes)) + length (snd (settle outcomes))
   = length outcomes)%nat.
Proof.
  induction outcomes as [|[k|m] rest IH]; [reflexivity| |];
    cbn [settle]; destruct (settle rest) as [ks errs]; cbn [fst snd length] in *; lia.
Qed.

Lemma startUploads_length (clock : nat -> Z) (i : nat) (files : list File) :
  length (startUploads clock i files) = length files.
Proof.
  revert i; induction files as [|f rest IH]; intros i; [reflexivity|].
  cbn [startUploads length]. rewrite IH. reflexivity.
Qed.

(** [handleUpload] starts the upload of every selected file, whatever
    becomes of the others.  When all succeed the batch is handed to the
    consumer once, the selection is cleared and one key per file is kept;
    when one fails nothing is handed over, one alert is shown and the
    selection stays, though the other uploads were made. *)
Theorem handleUpload_all_or_nothing (net : Uploads) (clock : nat -> Z) (st : State) :
  selectedFiles st <> [] ->
  let started := startUploads clock 0 (selectedFiles st) in
  let settled := settle (List.map (fun '(k, f) => uploadData net k f) started) in
  let run := handleUpload net clock st in
  uploadCalls (snd run) = started
  /\ (snd settled = [] ->
      fst run = {| selectedFiles := []; uploadedFiles := fst settled |}
      /\ handedOver (snd run) = [selectedFiles st]
      /\ alerts (snd run) = []
      /\ length (fst settled) = length (selectedFiles st))
  /\ (snd settled <> [] ->
      fst run = st
      /\ handedOver (snd run) = []
      /\ exists reason, alerts (snd run) = ["Upload failed. " ++ reason]).
Proof.
  intros Hsome. cbv zeta. unfold handleUpload.
  destruct (selectedFiles st) as [|f0 fs] eqn:Hsel; [contradiction|].
  cbn [length Nat.eqb].
  pose proof (settle_length
                (List.map (fun '(k, f) => uploadData net k f)
                          (startUploads clock 0 (f0 :: fs)))) as Hlen.
  rewrite length_map, startUploads_length in Hlen.
  destruct (settle (List.map (fun '(k, f) => uploadData net k f)
                             (startUploads clock 0 (f0 :: fs))))
    as [uploadedKeys thrown].
  destruct (calls_of_started (startUploads clock 0 (f0 :: fs))) as (Hc & Hh & Ha).
  cbn [fst snd] in *.
  destruct thrown as [|m thrown]; cbn [fst snd].
  - unfold uploadCalls, handedOver, alerts in *.
    rewrite !flat_map_app, Hc, Hh, Ha. cbn [flat_map app].
    rewrite app_nil_r.
    split; [reflexivity|]. split; [|intros H; contradiction H; reflexivity].
    intros _. repeat split. cbn [length] in Hlen |- *. lia.
  - unfold uploadCalls, handedOver, alerts in *.
    rewrite !flat_map_app, Hc, Hh, Ha. cbn [flat_map app].
    rewrite app_nil_r.
    split; [reflexivity|]. split; [discriminate|].
    intros _.
    split; [reflexivity|]. split; [reflexivity|].
    eexists. reflexivity.
Qed.

Lemma startUploads_In (clock : nat -> Z) (i : nat) (files : list File)
      (k : string) (g : File) :
  In (k, g) (startUploads clock i files) ->
  exists j, k = uploadKey (clock j) g /\ In g files.
Proof.
  revert i; induction files as [|f rest IH]; intros i H; [contradiction|].
  cbn [startUploads] in H. destruct H as [H|H].
  - injection H as <- <-. exists i. split; [reflexivity | left; reflexivity].
  - destruct (IH _ H) as (j & Hk & Hin). exists j. split; [exact Hk | right; exact Hin].
Qed.

(** Within a batch, files with different names are stored under different
    keys, even when the clock reads the same for all of them. *)
Theorem batch_keys_distinct (clock : nat -> Z) (files : list File) :
  (forall i, JSDate.validTime (clock i)) ->
  NoDup (List.map name files) ->
  NoDup (List.map fst (startUploads clock 0 files)).
Proof.
  intros Hvalid. generalize 0%nat as i.
  induction files as [|f rest IH]; intros i Hnames; [constructor|].
  cbn [startUploads List.map fst]. inversion Hnames as [|? ? Hfresh Hrest]; subst.
  constructor; [|apply IH, Hrest].
  intros Hin. apply in_map_iff in Hin. destruct Hin as ([k g] & Hk & Hin).
  cbn [fst] in Hk. subst k.
  destruct (startUploads_In clock (S i) rest _ g Hin) as (j & Hkey & Hg).
  destruct (uploadKey_inj (clock i) (clock j) f g (Hvalid i) (Hvalid j) Hkey)
    as [_ Hname].
  apply Hfresh. rewrite Hname. apply in_map, Hg.
Qed.

Lemma handleUpload_all_or_nothing_witness :
  uploadCalls (snd (handleUpload MoreExamples.noArchives MoreExamples.stopped
                      MoreExamples.batch))
  = startUploads MoreExamples.stopped 0 (selectedFiles MoreExamples.batch)
  /\ alerts (snd (handleUpload MoreExamples.noArchives MoreExamples.stopped
                    MoreExamples.batch))
     = ["Upload failed. Access Denied"]
  /\ handedOver (snd (handleUpload MoreExamples.reliable MoreExamples.stopped
                        MoreExamples.batch))
     = [selectedFiles MoreExamples.batch].
Proof.
  assert (Hsome : selectedFiles MoreExamples.batch <> []) by discriminate.
  destruct (handleUpload_all_or_nothing MoreExamples.noArchives MoreExamples.stopped
              MoreExamples.batch Hsome) as (Hcalls & _ & _).
  destruct (handleUpload_all_or_nothing MoreExamples.reliable MoreExamples.stopped
              MoreExamples.batch Hsome) as (_ & Hok & _).
  split; [exact Hcalls|]. split; [reflexivity|].
  apply Hok. reflexivity.
Defined.

Lemma batch_keys_distinct_witness :
  NoDup (List.map fst (startUploads MoreExamples.stopped 0
                         (selectedFiles MoreExamples.batch))).
Proof.
  apply (batch_keys_distinct MoreExamples.stopped (selectedFiles MoreExamples.batch)).
  - intros i. unfold JSDate.validTime, MoreExamples.stopped, UploadExamples.leapDayNoon.
    lia.
  - repeat constructor; simpl; intuition discriminate.
Defined.

End HandleUploadProperties.

(** ** The poll of the application shell *)

Module PollProperties.
Import Storage BirdProcessingApp.

Lemma promiseAll_Some {A : Type} (l : list (option A)) (l' : list A) :
  promiseAll l = Some l' -> l = List.map Some l'.
Proof.
  revert l'; induction l as [|[a|] l IH]; intros l' H; cbn [promiseAll] in H.
  - injection H as <-. reflexivity.
  - destruct (promiseAll l) as [l0|]; [|discriminate].
    injection H as <-. cbn [List.map]. rewrite (IH l0 eq_refl). reflexivity.
  - discriminate.
Qed.

Lemma promiseAll_None {A : Type} (l : list (option A)) :
  In None l -> promiseAll l = None.
Proof.
  induction l as [|[a|] l IH]; intros H; cbn [promiseAll].
  - contradiction.
  - destruct H as [H|H]; [discriminate|]. rewrite (IH H). reflexivity.
  - reflexivity.
Qed.

(** A poll always ends the processing state.  It either replaces the
    list shown, each entry then being an enhanced table of the listing with
    the handle minted for its key, or logs one error and leaves the list as
    it was; the failure of one handle among the enhanced tables listed is
    enough for that. *)
Theorem poll_all_or_nothing (env : Storage.t) (now : Z) (st : State) :
  isProcessing (fst (pollForResults env now st)) = false
  /\ ((snd (pollForResults env now st) = []
       /\ Forall (fun c => exists k,
                     csvKey c = Some k
                     /\ JS.includes k "enhanced_bird_results" = true
                     /\ JS.endsWith k ".csv" = true
                     /\ getUrl env now k = Some (csvDownloadUrl c))
                 (enhancedCSVs (fst (pollForResults env now st))))
      \/ (snd (pollForResults env now st) = ["Error polling for results:"]
          /\ enhancedCSVs (fst (pollForResults env now st)) = enhancedCSVs st))
  /\ (forall its file k,
        list_ env "public/results/" = Some {| items := Some its |} ->
        In file its -> isEnhancedCsv file = true -> key file = Some k ->
        getUrl env now k = None ->
        enhancedCSVs (fst (pollForResults env now st)) = enhancedCSVs st).
Proof.
  unfold pollForResults.
  split; [|split].
  - destruct (list_ env "public/results/") as [[[its|]]|]; cbn [items]; try reflexivity.
    destruct (promiseAll _); reflexivity.
  - destruct (list_ env "public/results/") as [[[its|]]|]; cbn [items];
      try (right; split; reflexivity).
    destruct (promiseAll (List.map (describe env now) (filter isEnhancedCsv its)))
      as [csvData|] eqn:Hall; [left | right; split; reflexivity].
    split; [reflexivity|]. cbn [fst enhancedCSVs].
    apply promiseAll_Some in Hall.
    rewrite Forall_forall. intros c Hc. apply sort_In in Hc.
    assert (Hsome : In (Some c) (List.map (describe env now) (filter isEnhancedCsv its)))
      by (rewrite Hall; apply in_map, Hc).
    apply in_map_iff in Hsome. destruct Hsome as (file & Hdesc & Hfile).
    apply filter_In in Hfile. destruct Hfile as [_ Hpat].
    unfold describe in Hdesc. unfold isEnhancedCsv in Hpat.
    destruct (key file) as [k|]; [|discriminate].
    destruct (getUrl env now k) as [url|] eqn:Hurl; [|discriminate].
    injection Hdesc as <-. cbn [csvKey csvDownloadUrl].
    apply andb_prop in Hpat. destruct Hpat as [Hinc Hend].
    exists k. repeat split; assumption.
  - intros its file k Hlist Hin Hpat Hk Hurl. rewrite Hlist; cbn [items].
    rewrite promiseAll_None; [reflexivity|].
    apply in_map_iff. exists file. split.
    + unfold describe. rewrite Hk, Hurl. reflexivity.
    + apply filter_In. split; assumption.
Qed.

End PollProperties.

(** ** File names shown by the viewer *)

Module ViewerMore.
Import Storage EnhancedCSVViewer.

Lemma split_at_least_two (sep : ascii) (a b : string) :
  exists h1 h2 t, JS.split sep (a ++ String sep b) = h1 :: h2 :: t.
Proof.
  induction a as [|c a (h1 & h2 & t & IH)]; cbn [append JS.split].
  - rewrite Ascii.eqb_refl.
    destruct (JS.split sep b) as [|h t] eqn:Hb;
      [exfalso; exact (TextFacts.split_not_nil sep b Hb)|]. eauto.
  - destruct (Ascii.eqb c sep); rewrite IH; eauto.
Qed.

Lemma last_split_after (sep : ascii) (a b : string) :
  List.last (JS.split sep (a ++ String sep b)) EmptyString
  = List.last (JS.split sep b) EmptyString.
Proof.
  induction a as [|c a IH]; cbn [append JS.split].
  - rewrite Ascii.eqb_refl.
    destruct (JS.split sep b) as [|h t] eqn:Hb;
      [exfalso; exact (TextFacts.split_not_nil sep b Hb) | reflexivity].
  - destruct (split_at_least_two sep a b) as (h1 & h2 & t & Hsplit).
    rewrite Hsplit in *. destruct (Ascii.eqb c sep); exact IH.
Qed.

(** [getFileName] gives the part of a path after its last slash; a path
    without slash, and a path that ends with a slash, are given back
    whole. *)
Theorem getFileName_last_segment (dir file : string) :
  occurs "/" file = false ->
  getFileName file = file
  /\ getFileName (dir ++ "/" ++ file) = (if JS.truthy file then file
                                         else dir ++ "/" ++ file).
Proof.
  intros Hfile. unfold getFileName.
  change (dir ++ "/" ++ file) with (dir ++ String "/" file).
  rewrite last_split_after, (TextFacts.split_field "/" file Hfile). cbn [List.last].
  split; [|reflexivity].
  destruct (JS.truthy file) eqn:Ht; [reflexivity|].
  destruct file; [reflexivity | discriminate Ht].
Qed.

Lemma getFileName_last_segment_witness :
  getFileName "enhanced_bird_results_1.csv" = "enhanced_bird_results_1.csv"
  /\ getFileName ("public/results" ++ "/" ++ "enhanced_bird_results_1.csv")
     = "enhanced_bird_results_1.csv".
Proof.
  apply (getFileName_last_segment "public/results" "enhanced_bird_results_1.csv").
  reflexivity.
Defined.

End ViewerMore.
